(** * The REST adapter of the to-do service: handlers, renderers and routes

    A shallow embedding of the two Go files of package [rest]:
    - [internal/rest/rest.go], in module [rest]: [ErrorResponse],
      [renderErrorResponse] (context, writer, message, error) and
      [renderResponse];
    - the task handlers file, in module [tasks]: [uuidRegEx], [TaskService],
      [Register], the wire structs and the handlers [create], [task] and
      [update].

    The libraries the package calls are modelled by the part of their
    documented behaviour that the package relies on, each in a module named
    after the Go package: [json], [http], [validation], [internal], [errors],
    [trace] and [mux].  Module [resttesting] holds the test doubles. *)

From Stdlib Require Import ZArith String Ascii List Bool Lia.
From stdpp Require Import base option gmap strings list sorting.

Local Open Scope Z_scope.

(** ** encoding/json: the encoder, the scanner and the decoder *)

Module json.

Definition double_quote : ascii := "034"%char.
Definition backslash : ascii := "092"%char.

Definition hex_digit (n : N) : ascii :=
  nth (N.to_nat n) (list_ascii_of_string "0123456789abcdef") "0"%char.

(** How [Marshal] writes one byte of a string: the quote and the backslash
    are escaped, line feed, carriage return and tab have their short forms,
    the other control bytes and [<], [>], [&] (HTML escaping is on in
    [Marshal]) become [\u00XX]; the rest is copied.  Bytes from 0x80 on are
    copied too, which is what the encoder does for well-formed UTF-8 other
    than U+2028 and U+2029.  (Backspace and form feed are written [\u0008]
    and [\u000c], as the encoder did until it gave them short forms.) *)
Definition escape (c : ascii) : string :=
  let n := N_of_ascii c in
  if (n =? 34)%N || (n =? 92)%N then String backslash (String c EmptyString)
  else if (n =? 10)%N then String backslash "n"
  else if (n =? 13)%N then String backslash "r"
  else if (n =? 9)%N then String backslash "t"
  else if (n <? 32)%N || (n =? 60)%N || (n =? 62)%N || (n =? 38)%N then
    String backslash
      ("u00" +:+ String (hex_digit (n / 16)) (String (hex_digit (n mod 16)) EmptyString))
  else String c EmptyString.

Fixpoint escape_all (s : string) : string :=
  match s with
  | EmptyString => EmptyString
  | String c s' => escape c +:+ escape_all s'
  end.

(** A Go string as a JSON string literal. *)
Definition quote (s : string) : string :=
  String double_quote (escape_all s +:+ String double_quote EmptyString).

(** One member of an object; the value is already encoded. *)
Definition member (kv : string * string) : string :=
  quote kv.1 +:+ ":" +:+ kv.2.

(** A JSON object in [Marshal]'s compact form. *)
Definition object (members : list (string * string)) : string :=
  "{" +:+ String.concat "," (member <$> members) +:+ "}".

(** [json.Marshal(v)]: the encoding of [v], or [None] for the error it
    returns.  A Go type is encodable through its instance, the way a Go type
    is through its kind or its [MarshalJSON] method. *)
Class Marshaler (A : Type) := MarshalJSON : A → option string.
#[global] Hint Mode Marshaler ! : typeclass_instances.

Definition Marshal {A} `{!Marshaler A} (v : A) : option string := MarshalJSON v.

#[global] Instance string_Marshaler : Marshaler string := λ s, Some (quote s).

(** A struct field under its JSON tag. *)
Definition field {A} `{!Marshaler A} (tag : string) (v : A) : option (string * string) :=
  pair tag <$> Marshal v.

(** A struct: an object of its fields in declaration order; the encoding
    fails when the encoding of a field does. *)
Definition struct (fields : list (option (string * string))) : option string :=
  object <$> mapM id fields.

(** *** The scanner

    The decoder finds the end of a value with the package's scanner, a
    state machine fed one byte at a time: the state it is in ([step]) and
    the stack of the objects and arrays it is inside of ([parse]). *)

Inductive step : Type :=
  | BeginValueOrEmpty   (* after the bracket that opens an array *)
  | BeginValue
  | BeginStringOrEmpty  (* after the brace that opens an object *)
  | BeginString         (* after a comma in an object *)
  | EndValue
  | EndTop              (* the top-level value is complete *)
  | InString
  | InStringEsc
  | InStringEscU (togo : nat)     (* hex digits of a \u escape still to come *)
  | Neg
  | Digit1              (* in the digits of a number that starts 1 to 9 *)
  | Digit0              (* after the integer part of a number *)
  | Dot
  | Dot0
  | Exp
  | ExpSign
  | Exp0
  | Literal (togo : list ascii)   (* letters of true, false or null still to come *)
  | Errored.

Inductive parse : Type := ObjectKey | ObjectValue | ArrayValue.

Record scanner : Type := mkScanner {
  state : step;
  parseState : list parse
}.

(** What a step reports, as far as the decoder tells the codes apart: go
    on, an object or array was closed by this byte, the top-level value
    ended before this byte, or a syntax error. *)
Inductive opcode : Type := scanContinue | scanEndObjectOrArray | scanEnd | scanError.

Definition isSpace (c : ascii) : bool :=
  let n := N_of_ascii c in
  (n =? 32)%N || (n =? 9)%N || (n =? 13)%N || (n =? 10)%N.

Definition isDigit (c : ascii) : bool :=
  (48 <=? N_of_ascii c)%N && (N_of_ascii c <=? 57)%N.

Definition isHex (c : ascii) : bool :=
  isDigit c
  || ((97 <=? N_of_ascii c)%N && (N_of_ascii c <=? 102)%N)
  || ((65 <=? N_of_ascii c)%N && (N_of_ascii c <=? 70)%N).

Definition maxNestingDepth : N := 10000.

Definition failed : opcode * scanner := (scanError, mkScanner Errored []).

Definition to (st : step) (ps : list parse) : opcode * scanner :=
  (scanContinue, mkScanner st ps).

(** A byte after the top-level value: the value has ended; a byte that is
    not a space is complained about at the next step. *)
Definition stateEndTop (c : ascii) : opcode * scanner :=
  (scanEnd, mkScanner (if isSpace c then EndTop else Errored) []).

Definition popParseState (ps : list parse) : scanner :=
  match tail ps with
  | [] => mkScanner EndTop []
  | below => mkScanner EndValue below
  end.

Definition pushParseState (p : parse) (st : step) (ps : list parse) : opcode * scanner :=
  if (maxNestingDepth <? N.of_nat (length (p :: ps)))%N then failed else to st (p :: ps).

Definition stateEndValue (ps : list parse) (c : ascii) : opcode * scanner :=
  match ps with
  | [] => stateEndTop c
  | top :: below =>
      if isSpace c then to EndValue ps
      else
        match top with
        | ObjectKey =>
            if Ascii.eqb c ":" then to BeginValue (ObjectValue :: below) else failed
        | ObjectValue =>
            if Ascii.eqb c "," then to BeginString (ObjectKey :: below)
            else if Ascii.eqb c "}" then (scanEndObjectOrArray, popParseState ps)
            else failed
        | ArrayValue =>
            if Ascii.eqb c "," then to BeginValue ps
            else if Ascii.eqb c "]" then (scanEndObjectOrArray, popParseState ps)
            else failed
        end
  end.

Definition stateBeginValue (s : scanner) (c : ascii) : opcode * scanner :=
  let ps := parseState s in
  if isSpace c then (scanContinue, s)
  else if Ascii.eqb c "{" then pushParseState ObjectKey BeginStringOrEmpty ps
  else if Ascii.eqb c "[" then pushParseState ArrayValue BeginValueOrEmpty ps
  else if Ascii.eqb c double_quote then to InString ps
  else if Ascii.eqb c "-" then to Neg ps
  else if Ascii.eqb c "0" then to Digit0 ps
  else if Ascii.eqb c "t" then to (Literal (list_ascii_of_string "rue")) ps
  else if Ascii.eqb c "f" then to (Literal (list_ascii_of_string "alse")) ps
  else if Ascii.eqb c "n" then to (Literal (list_ascii_of_string "ull")) ps
  else if isDigit c then to Digit1 ps
  else failed.

Definition stateBeginString (s : scanner) (c : ascii) : opcode * scanner :=
  if isSpace c then (scanContinue, s)
  else if Ascii.eqb c double_quote then to InString (parseState s)
  else failed.

Definition state0 (ps : list parse) (c : ascii) : opcode * scanner :=
  if Ascii.eqb c "." then to Dot ps
  else if Ascii.eqb c "e" || Ascii.eqb c "E" then to Exp ps
  else stateEndValue ps c.

Definition stateESign (ps : list parse) (c : ascii) : opcode * scanner :=
  if isDigit c then to Exp0 ps else failed.

(** One byte through the scanner. *)
Definition scan (s : scanner) (c : ascii) : opcode * scanner :=
  let ps := parseState s in
  match state s with
  | BeginValueOrEmpty =>
      if isSpace c then (scanContinue, s)
      else if Ascii.eqb c "]" then stateEndValue ps c
      else stateBeginValue s c
  | BeginValue => stateBeginValue s c
  | BeginStringOrEmpty =>
      if isSpace c then (scanContinue, s)
      else if Ascii.eqb c "}" then stateEndValue (ObjectValue :: tail ps) c
      else stateBeginString s c
  | BeginString => stateBeginString s c
  | EndValue => stateEndValue ps c
  | EndTop => stateEndTop c
  | InString =>
      if Ascii.eqb c double_quote then to EndValue ps
      else if Ascii.eqb c backslash then to InStringEsc ps
      else if (N_of_ascii c <? 32)%N then failed
      else to InString ps
  | InStringEsc =>
      if bool_decide (c ∈ backslash :: double_quote :: list_ascii_of_string "bfnrt/")
      then to InString ps
      else if Ascii.eqb c "u" then to (InStringEscU 4) ps
      else failed
  | InStringEscU togo =>
      if isHex c then
        match togo with
        | S (S togo') => to (InStringEscU (S togo')) ps
        | _ => to InString ps
        end
      else failed
  | Neg =>
      if Ascii.eqb c "0" then to Digit0 ps
      else if isDigit c then to Digit1 ps
      else failed
  | Digit1 => if isDigit c then to Digit1 ps else state0 ps c
  | Digit0 => state0 ps c
  | Dot => if isDigit c then to Dot0 ps else failed
  | Dot0 =>
      if isDigit c then to Dot0 ps
      else if Ascii.eqb c "e" || Ascii.eqb c "E" then to Exp ps
      else stateEndValue ps c
  | Exp =>
      if Ascii.eqb c "+" || Ascii.eqb c "-" then to ExpSign ps else stateESign ps c
  | ExpSign => stateESign ps c
  | Exp0 => if isDigit c then to Exp0 ps else stateEndValue ps c
  | Literal togo =>
      match togo with
      | x :: togo' =>
          if Ascii.eqb c x then
            match togo' with
            | [] => to EndValue ps
            | _ => to (Literal togo') ps
            end
          else failed
      | [] => failed
      end
  | Errored => failed
  end.

Definition reset : scanner := mkScanner BeginValue [].

(** [json.Valid]: the whole text is one JSON value, with nothing but space
    around it. *)
Fixpoint Valid_from (s : scanner) (data : list ascii) : bool :=
  match data with
  | [] =>
      match state s with
      | Errored => false
      | EndTop => true
      | _ => match state (scan s " ").2 with EndTop => true | _ => false end
      end
  | c :: data' =>
      match scan s c with
      | (scanError, _) => false
      | (_, s') => Valid_from s' data'
      end
  end.

Definition Valid (data : string) : bool := Valid_from reset (list_ascii_of_string data).

(** *** The decoder *)

(** The bytes of the next value in the input, as [Decoder.Decode] reads
    them: up to the byte that closes the top-level object or array, or to
    the byte before the one that ends a top-level string, number or literal;
    the bytes after the value are not looked at.  [None] for a syntax error
    in the value and for an input that ends before the value does.  [seen]
    holds the bytes read so far, latest first. *)
Fixpoint readValue_from (s : scanner) (seen input : list ascii)
    : option (list ascii * list ascii) :=
  match input with
  | [] =>
      match scan s " " with
      | (scanEnd, _) => Some (rev seen, [])
      | _ => None
      end
  | c :: input' =>
      match scan s c with
      | (scanEnd, _) => Some (rev seen, input)
      | (scanEndObjectOrArray, s') =>
          match parseState s' with
          | [] => Some (rev (c :: seen), input')
          | _ => readValue_from s' (c :: seen) input'
          end
      | (scanError, _) => None
      | (scanContinue, s') => readValue_from s' (c :: seen) input'
      end
  end.

(** The next value of the input and what follows it. *)
Definition readValue (input : string) : option (string * string) :=
  prod_map string_of_list_ascii string_of_list_ascii
    <$> readValue_from reset [] (list_ascii_of_string input).

(** How the bytes of one JSON value are stored into a Go value of type
    [A]: the stored value, or [None] for the error reported (a value of the
    wrong kind for the target, an error of the type's [UnmarshalJSON]). *)
Class Unmarshaler (A : Type) := Unmarshal : string → option A.
#[global] Hint Mode Unmarshaler ! : typeclass_instances.

(** [json.NewDecoder(body).Decode(&v)] for a [v] of type [A], on a body
    nothing was read from yet: the next value is read and stored. *)
Definition Decode {A} `{!Unmarshaler A} (body : string) : option A :=
  readValue body ≫= λ '(value, _), Unmarshal value.

(** Writes ['] for the double quote in the JSON texts quoted below. *)
Definition text (s : string) : string :=
  string_of_list_ascii
    ((λ c, if (N_of_ascii c =? 39)%N then double_quote else c) <$> list_ascii_of_string s).

End json.

(** ** net/http: status codes, methods and the response writer *)

Module http.

Definition StatusOK : Z := 200.
Definition StatusCreated : Z := 201.
Definition StatusBadRequest : Z := 400.
Definition StatusNotFound : Z := 404.
Definition StatusInternalServerError : Z := 500.

Definition MethodGet : string := "GET".
Definition MethodPost : string := "POST".
Definition MethodPut : string := "PUT".

(** The response as a [ResponseWriter] has built it so far: the header map,
    the status line once it is written ([Code]), and the body bytes. *)
Record ResponseWriter : Type := mkResponseWriter {
  Header : gmap string (list string);
  Code : option Z;
  Body : string
}.

(** A writer nothing was written to, as the server hands it to a handler. *)
Definition NewRecorder : ResponseWriter :=
  {| Header := ∅; Code := None; Body := EmptyString |}.

(** [w.Header().Set(key, value)]; once the status line is out, the headers
    of the response no longer change. *)
Definition Header_Set (key value : string) (w : ResponseWriter) : ResponseWriter :=
  match Code w with
  | None => {| Header := <[key := [value]]> (Header w); Code := Code w; Body := Body w |}
  | Some _ => w
  end.

(** [w.WriteHeader(status)]; a second call is superfluous and ignored.
    (The package passes the constants above; the server refuses a status
    that is not of three digits, which is left out here.) *)
Definition WriteHeader (status : Z) (w : ResponseWriter) : ResponseWriter :=
  match Code w with
  | None => {| Header := Header w; Code := Some status; Body := Body w |}
  | Some _ => w
  end.

(** [w.Write(content)]: writes the status line with 200 if it is not out
    yet, then the bytes. *)
Definition Write (content : string) (w : ResponseWriter) : ResponseWriter :=
  let w := WriteHeader StatusOK w in
  {| Header := Header w; Code := Code w; Body := Body w +:+ content |}.

(** A request, as far as the handlers read it: the bytes of its body and
    the route variables the router stored for it ([mux.Vars]). *)
Module Request.
Record t : Type := mk {
  Body : string;
  Vars : gmap string string
}.
End Request.

End http.

(** ** ozzo-validation: the map of field-level failures *)

Module validation.

(** The failure of one field: an error that stands for its message, or
    the failures of the fields of a nested struct, a [validation.Errors]
    again. *)
#[warnings="-register-all"]
Inductive failure : Type :=
  | Message (msg : string)
  | Nested (fields : gmap string failure).

(** [validation.Errors], a map from field name to failure.  The nil map and
    the empty map, which Go code cannot tell apart by reading, are both
    [∅]. *)
Abbreviation Errors := (gmap string failure).

Definition key_le (a b : string * string) : Prop := String.leb a.1 b.1.

#[global] Instance key_le_dec a b : Decision (key_le a b).
Proof. unfold key_le. apply _. Defined.

(** How a failure is written: a message as a JSON string, nested failures
    by their own [MarshalJSON], an object of the failures with the keys
    sorted. *)
Fixpoint encode (f : failure) : string :=
  match f with
  | Message msg => json.quote msg
  | Nested fields => json.object (merge_sort key_le (map_to_list (encode <$> fields)))
  end.

(** [Errors.MarshalJSON]. *)
#[global] Instance Errors_Marshaler : json.Marshaler Errors := λ es,
  Some (encode (Nested es)).

End validation.

(** ** Package internal: the domain error and its codes *)

Module internal.

(** [ErrorCode].  The package's file is not among the sources; the renderer
    names three codes and sends every other value of the type to its
    [default] case, so only their being distinct matters here. *)
Inductive ErrorCode : Type :=
  | ErrorCodeUnknown
  | ErrorCodeNotFound
  | ErrorCodeInvalidArgument
  | ErrorCodeOther (n : N).

(** The values an [error] holds, by dynamic type: an error without a chain
    ([errors.New]), one wrapping another ([fmt.Errorf] with [%w]), a
    [*internal.Error] and a [validation.Errors].  [Error] is the struct the
    pointer refers to: the wrapped original (nil or an error), the message
    and the code. *)
Inductive error : Type :=
  | errorString (s : string)
  | wrapError (msg : string) (err : error)
  | ptrError (e : Error)
  | validationErrors (es : validation.Errors)
with Error : Type :=
  | mkError (orig : option error) (msg : string) (code : ErrorCode).

Definition Code (e : Error) : ErrorCode := let 'mkError _ _ c := e in c.

(** The [Unwrap] method of the pointer type. *)
Definition Unwrap (e : Error) : option error := let 'mkError o _ _ := e in o.

(** [Task], the fields the handlers read. *)
Record Task {Priority Dates : Type} : Type := mkTask {
  ID : string;
  Description : string;
  Priority_ : Priority;
  Dates_ : Dates
}.
Arguments Task : clear implicits.
Arguments mkTask {Priority Dates} _ _ _ _.

End internal.

(** ** errors.As at the two target types the renderer uses *)

Module errors.
Import internal.

(** [errors.As(err, &ierr)] for [ierr : *internal.Error]: the first
    [*internal.Error] on the chain of [err]. *)
Fixpoint As_Error_chain (err : error) : option Error :=
  match err with
  | errorString _ => None
  | wrapError _ inner => As_Error_chain inner
  | ptrError e => Some e
  | validationErrors _ => None
  end.

(** A nil [err] has no chain: [errors.As] reports false. *)
Definition As_Error (err : option error) : option Error :=
  err ≫= As_Error_chain.

(** [errors.As(err, &verrors)] for [verrors : validation.Errors]: the first
    [validation.Errors] on the chain. *)
Fixpoint As_Errors (err : error) : option validation.Errors :=
  match err with
  | errorString _ => None
  | wrapError _ inner => As_Errors inner
  | ptrError e =>
      match Unwrap e with
      | Some inner => As_Errors inner
      | None => None
      end
  | validationErrors es => Some es
  end.

End errors.

(** ** OpenTelemetry: what is recorded on spans *)

Module trace.

Inductive Event : Type :=
  | Start (name : string)
  | RecordError (err : internal.error)
  | End_ (name : string).

(** The context, as far as the renderer uses it: the events recorded
    through its tracer, oldest first. *)
Definition Context : Type := list Event.

End trace.

(** ** gorilla/mux: path templates, routes and matching *)

Module mux.

(** The regular expressions the routes use: a bracket class of ranges or a
    literal character, each repeated a fixed number of times, in sequence. *)
Inductive atom : Type :=
  | Class (ranges : list (ascii * ascii))
  | Literal (c : ascii).

Definition regexp : Type := list (atom * nat).

Definition in_range (c : ascii) (r : ascii * ascii) : bool :=
  (N_of_ascii r.1 <=? N_of_ascii c)%N && (N_of_ascii c <=? N_of_ascii r.2)%N.

Definition atom_matches (a : atom) (c : ascii) : bool :=
  match a with
  | Class ranges => existsb (in_range c) ranges
  | Literal l => Ascii.eqb l c
  end.

(** [n] characters that each match [a]; what follows them. *)
Fixpoint strip_atom (a : atom) (n : nat) (s : list ascii) : option (list ascii) :=
  match n with
  | O => Some s
  | S n' =>
      match s with
      | c :: s' => if atom_matches a c then strip_atom a n' s' else None
      | [] => None
      end
  end.

(** A match of [r] at the start of [s]; what follows it. *)
Fixpoint strip_regexp (r : regexp) (s : list ascii) : option (list ascii) :=
  match r with
  | [] => Some s
  | (a, n) :: r' => strip_atom a n s ≫= strip_regexp r'
  end.

(** *** Reading a pattern *)

Definition is_digit (c : ascii) : bool :=
  (48 <=? N_of_ascii c)%N && (N_of_ascii c <=? 57)%N.

Definition is_alnum (c : ascii) : bool :=
  is_digit c
  || ((65 <=? N_of_ascii c)%N && (N_of_ascii c <=? 90)%N)
  || ((97 <=? N_of_ascii c)%N && (N_of_ascii c <=? 122)%N).

(** Characters with a meaning of their own in a pattern. *)
Definition is_meta (c : ascii) : bool :=
  bool_decide (c ∈ list_ascii_of_string "\.+*?()|[]{}^$").

(** The inside of a bracket class, after its opening bracket: ranges
    [lo-hi] and single characters up to the closing bracket. *)
Fixpoint parse_class (s : list ascii) (acc : list (ascii * ascii))
    : option (list (ascii * ascii) * list ascii) :=
  match s with
  | [] => None
  | c :: s1 =>
      if Ascii.eqb c "]" then Some (rev acc, s1)
      else if is_meta c || Ascii.eqb c "-" then None
      else
        match s1 with
        | dash :: hi :: s2 =>
            if Ascii.eqb dash "-" then
              if is_meta hi then None else parse_class s2 ((c, hi) :: acc)
            else parse_class s1 ((c, c) :: acc)
        | _ => parse_class s1 ((c, c) :: acc)
        end
  end.

(** The count of a repetition, after its opening brace. *)
Fixpoint parse_count (s : list ascii) (acc : nat) : option (nat * list ascii) :=
  match s with
  | [] => None
  | c :: s' =>
      if Ascii.eqb c "}" then Some (acc, s')
      else if is_digit c then
        parse_count s' (10 * acc + (N.to_nat (N_of_ascii c) - 48))%nat
      else None
  end.

(** One atom: a class, an escaped punctuation character or a plain one. *)
Definition parse_atom (s : list ascii) : option (atom * list ascii) :=
  match s with
  | [] => None
  | c :: s' =>
      if Ascii.eqb c "[" then
        parse_class s' [] ≫= λ '(ranges, rest), Some (Class ranges, rest)
      else if Ascii.eqb c json.backslash then
        match s' with
        | e :: rest => if is_alnum e then None else Some (Literal e, rest)
        | [] => None
        end
      else if is_meta c then None
      else Some (Literal c, s')
  end.

Fixpoint parse_atoms (fuel : nat) (s : list ascii) : option regexp :=
  match s, fuel with
  | [], _ => Some []
  | _, O => None
  | _, S fuel' =>
      parse_atom s ≫= λ '(a, rest),
      match rest with
      | c :: rest' =>
          if Ascii.eqb c "{" then
            parse_count rest' 0 ≫= λ '(n, rest''),
            parse_atoms fuel' rest'' ≫= λ r, Some ((a, n) :: r)
          else parse_atoms fuel' rest ≫= λ r, Some ((a, 1%nat) :: r)
      | [] => Some [(a, 1%nat)]
      end
  end.

(** A pattern of the supported form as a [regexp]; [None] for any other. *)
Definition parse_regexp (pattern : list ascii) : option regexp :=
  parse_atoms (length pattern) pattern.

(** *** Path templates *)

(** A template is static text and variables [{name:pattern}]. *)
Inductive part : Type :=
  | Static (text : list ascii)
  | Var (name : string) (pattern : regexp).

(** The template cut at its outermost braces, as the router finds them by
    counting nesting levels: static pieces (false) and the insides of the
    variables (true). *)
Fixpoint braces (s : list ascii) (level : nat) (cur : list ascii)
    : option (list (bool * list ascii)) :=
  match s with
  | [] =>
      match level with
      | O => Some (if cur is [] then [] else [(false, rev cur)])
      | S _ => None
      end
  | c :: s' =>
      if Ascii.eqb c "{" then
        match level with
        | O => cons (false, rev cur) <$> braces s' 1 []
        | S _ => braces s' (S level) (c :: cur)
        end
      else if Ascii.eqb c "}" then
        match level with
        | O => None
        | S O => cons (true, rev cur) <$> braces s' 0 []
        | S level' => braces s' level' (c :: cur)
        end
      else braces s' level (c :: cur)
  end.

(** The inside of a variable: the name up to the first colon, then the
    pattern.  (A variable without a pattern is outside the supported
    patterns.) *)
Fixpoint parse_var (s : list ascii) (name : list ascii) : option part :=
  match s with
  | [] => None
  | c :: s' =>
      if Ascii.eqb c ":" then Var (string_of_list_ascii (rev name)) <$> parse_regexp s'
      else parse_var s' (c :: name)
  end.

Definition parse_template (tpl : string) : option (list part) :=
  braces (list_ascii_of_string tpl) 0 [] ≫=
  mapM (λ '(is_var, text), if is_var : bool then parse_var text [] else Some (Static text)).

Fixpoint strip_prefix (p s : list ascii) : option (list ascii) :=
  match p, s with
  | [], _ => Some s
  | a :: p', b :: s' => if Ascii.eqb a b then strip_prefix p' s' else None
  | _ :: _, [] => None
  end.

(** The path against the template, anchored at both ends; the variables
    bound on the way. *)
Fixpoint match_parts (ps : list part) (path : list ascii) (vars : gmap string string)
    : option (gmap string string) :=
  match ps with
  | [] => if path is [] then Some vars else None
  | Static text :: ps' =>
      strip_prefix text path ≫= λ rest, match_parts ps' rest vars
  | Var name pattern :: ps' =>
      strip_regexp pattern path ≫= λ rest,
      let value := take (length path - length rest) path in
      match_parts ps' rest (<[name := string_of_list_ascii value]> vars)
  end.

(** *** Routes *)

(** A route: its compiled path template ([None] when the template did not
    compile: such a route matches nothing), the methods it is restricted to
    and its handler. *)
Record Route {H : Type} : Type := mkRoute {
  template : option (list part);
  methods : list string;
  handler : H
}.
Arguments Route : clear implicits.
Arguments mkRoute {H} _ _ _.

Definition Router (H : Type) : Type := list (Route H).

Definition NewRouter {H} : Router H := [].

(** [r.HandleFunc(path, f).Methods(methods...)]: one more route, after
    those registered before. *)
Definition HandleFunc {H} (path : string) (f : H) (methods : list string)
    (r : Router H) : Router H :=
  r ++ [mkRoute (parse_template path) methods f].

Inductive RouteMatch {H : Type} : Type :=
  | Matched (h : H) (vars : gmap string string)
  | MethodNotAllowed
  | NotFound.
Arguments RouteMatch : clear implicits.

Definition path_vars {H} (rt : Route H) (path : string) : option (gmap string string) :=
  template rt ≫= λ ps, match_parts ps (list_ascii_of_string path) ∅.

(** A route without methods of its own takes any method. *)
Definition method_matches {H} (rt : Route H) (method : string) : bool :=
  match methods rt with
  | [] => true
  | ms => bool_decide (method ∈ ms)
  end.

(** [Router.Match]: the first route whose path and method both match.  A
    route whose path matches under another method leaves a method
    mismatch behind, reported when no later route matches. *)
Fixpoint Match {H} (r : Router H) (method path : string) (mismatch : bool) : RouteMatch H :=
  match r with
  | [] => if mismatch then MethodNotAllowed else NotFound
  | rt :: r' =>
      match path_vars rt path with
      | Some vars =>
          if method_matches rt method then Matched (handler rt) vars
          else Match r' method path true
      | None => Match r' method path mismatch
      end
  end.

(** [mux.Vars(r)]. *)
Definition Vars (r : http.Request.t) : gmap string string := http.Request.Vars r.

End mux.

(** ** Package rest, file rest.go *)

Module rest.
Import internal.

(** [ErrorResponse]: [Error] under the tag [error], [Validations] under
    [validations,omitempty]. *)
Record ErrorResponse : Type := mkErrorResponse {
  Error_ : string;
  Validations : validation.Errors
}.

(** The encoding of an [ErrorResponse]; [omitempty] leaves a map of length
    zero out. *)
#[global] Instance ErrorResponse_Marshaler : json.Marshaler ErrorResponse := λ r,
  json.struct
    (json.field "error" (Error_ r) ::
     if decide (size (Validations r) = 0%nat) then []
     else [json.field "validations" (Validations r)]).

(** [renderResponse(w, res, status)]. *)
Definition renderResponse {A} `{!json.Marshaler A}
    (w : http.ResponseWriter) (res : A) (status : Z) : http.ResponseWriter :=
  let w := http.Header_Set "Content-Type" "application/json" w in
  match json.Marshal res with
  | None =>
      http.WriteHeader http.StatusInternalServerError w
  | Some content =>
      let w := http.WriteHeader status w in
      (* the error of Write is dropped *)
      http.Write content w
  end.

(** The body and the status [renderErrorResponse] settles on before it
    renders: lines 22 to 44 of rest.go. *)
Definition errorResponseOf (msg : string) (err : option error) : ErrorResponse * Z :=
  let resp := {| Error_ := msg; Validations := ∅ |} in
  let status := http.StatusInternalServerError in
  match errors.As_Error err with
  | None =>
      ({| Error_ := "internal error"; Validations := Validations resp |}, status)
  | Some ierr =>
      match Code ierr with
      | ErrorCodeNotFound =>
          (resp, http.StatusNotFound)
      | ErrorCodeInvalidArgument =>
          let status := http.StatusBadRequest in
          match errors.As_Errors (ptrError ierr) with
          | Some verrors => ({| Error_ := Error_ resp; Validations := verrors |}, status)
          | None => (resp, status)
          end
      | ErrorCodeUnknown
      | ErrorCodeOther _ =>
          (resp, http.StatusInternalServerError)
      end
  end.

(** [renderErrorResponse(ctx, w, msg, err)].  A non-nil [err] is recorded on
    a span started for the call; the span's deferred [End] runs after the
    response is rendered. *)
Definition renderErrorResponse (ctx : trace.Context) (w : http.ResponseWriter)
    (msg : string) (err : option error) : trace.Context * http.ResponseWriter :=
  let '(resp, status) := errorResponseOf msg err in
  let '(ctx, deferred) :=
    match err with
    | Some e =>
        (ctx ++ [trace.Start "rest.renderErrorResponse"; trace.RecordError e],
         [trace.End_ "rest.renderErrorResponse"])
    | None => (ctx, [])
    end in
  let w := renderResponse w resp status in
  (ctx ++ deferred, w).

End rest.

(** ** Package rest, the task handlers file *)

Module tasks.
Import internal.

Definition uuidRegEx : string :=
  "[0-9a-fA-F]{8}\-[0-9a-fA-F]{4}\-[0-9a-fA-F]{4}\-[0-9a-fA-F]{4}\-[0-9a-fA-F]{12}".

(** The wire types [Priority] and [Dates] of package rest, the domain types
    [internal.Priority] and [internal.Dates], the conversions between them
    ([Convert] one way, [NewPriority] and [NewDates] the other) and the JSON
    encodings of the wire types.  Their files are not among the sources, so
    the handlers are stated over any such types. *)
Class Wire : Type := {
  Priority : Type;
  Dates : Type;
  internal_Priority : Type;
  internal_Dates : Type;
  Priority_Convert : Priority → internal_Priority;
  Dates_Convert : Dates → internal_Dates;
  NewPriority : internal_Priority → Priority;
  NewDates : internal_Dates → Dates;
  Priority_Marshaler :: json.Marshaler Priority;
  Dates_Marshaler :: json.Marshaler Dates
}.

(** [TaskService]: the three operations, each returning what the Go method
    returns (the error is [None] for nil). *)
Module TaskService.
Record t `{Wire} : Type := mk {
  Create : string → internal_Priority → internal_Dates
           → internal.Task internal_Priority internal_Dates * option error;
  Task : string → internal.Task internal_Priority internal_Dates * option error;
  Update : string → string → internal_Priority → internal_Dates → bool → option error
}.
End TaskService.

Record TaskHandler `{Wire} : Type := mkTaskHandler {
  svc : TaskService.t
}.

Definition NewTaskHandler `{Wire} (svc : TaskService.t) : TaskHandler :=
  {| svc := svc |}.

(** [Task], the wire struct, with its JSON tags. *)
Module Task.
Record t `{Wire} : Type := mk {
  ID : string;
  Description : string;
  Priority : Priority;
  Dates : Dates
}.
End Task.

#[global] Instance Task_Marshaler `{Wire} : json.Marshaler Task.t := λ v,
  json.struct
    [json.field "id" (Task.ID v);
     json.field "description" (Task.Description v);
     json.field "priority" (Task.Priority v);
     json.field "dates" (Task.Dates v)].

Module CreateTasksRequest.
Record t `{Wire} : Type := mk {
  Description : string;
  Priority : Priority;
  Dates : Dates
}.
End CreateTasksRequest.

Module CreateTasksResponse.
Record t `{Wire} : Type := mk {
  Task : Task.t
}.
End CreateTasksResponse.

#[global] Instance CreateTasksResponse_Marshaler `{Wire}
    : json.Marshaler CreateTasksResponse.t := λ v,
  json.struct [json.field "task" (CreateTasksResponse.Task v)].

Module ReadTasksResponse.
Record t `{Wire} : Type := mk {
  Task : Task.t
}.
End ReadTasksResponse.

#[global] Instance ReadTasksResponse_Marshaler `{Wire}
    : json.Marshaler ReadTasksResponse.t := λ v,
  json.struct [json.field "task" (ReadTasksResponse.Task v)].

Module UpdateTasksRequest.
Record t `{Wire} : Type := mk {
  Description : string;
  IsDone : bool;
  Priority : Priority;
  Dates : Dates
}.
End UpdateTasksRequest.

(** The value of [&struct{}{}], which encodes as the empty object. *)
Inductive EmptyStruct : Type := emptyStruct.

#[global] Instance EmptyStruct_Marshaler : json.Marshaler EmptyStruct := λ _,
  json.struct [].

(** *** What a handler does *)

(** A call of the service collaborator, with its arguments. *)
Inductive Call `{Wire} : Type :=
  | CallCreate (description : string) (priority : internal_Priority) (dates : internal_Dates)
  | CallTask (id : string)
  | CallUpdate (id description : string) (priority : internal_Priority)
      (dates : internal_Dates) (isDone : bool).

(** A deferred call; the handlers defer only [r.Body.Close()]. *)
Inductive Deferred : Type := Body_Close.

(** The state a handler works on: the response writer, whether the request
    body is closed, the calls made on the service so far (oldest first) and
    the calls deferred so far (latest first). *)
Record State `{Wire} : Type := mkState {
  Writer : http.ResponseWriter;
  BodyClosed : bool;
  Calls : list Call;
  Defers : list Deferred
}.

Definition Handler `{Wire} (A : Type) : Type := State → A * State.

#[global] Instance Handler_ret `{Wire} : MRet Handler := λ A a s, (a, s).
#[global] Instance Handler_bind `{Wire} : MBind Handler := λ A B f m s,
  let '(a, s') := m s in f a s'.

(** A step that writes to the response. *)
Definition respond `{Wire} (f : http.ResponseWriter → http.ResponseWriter) : Handler unit :=
  λ s, (tt, {| Writer := f (Writer s); BodyClosed := BodyClosed s;
               Calls := Calls s; Defers := Defers s |}).

(** [defer d]. *)
Definition defer `{Wire} (d : Deferred) : Handler unit :=
  λ s, (tt, {| Writer := Writer s; BodyClosed := BodyClosed s;
               Calls := Calls s; Defers := d :: Defers s |}).

(** A call of the service: it is logged and its result returned. *)
Definition invoke `{Wire} {A} (c : Call) (result : A) : Handler A :=
  λ s, (result, {| Writer := Writer s; BodyClosed := BodyClosed s;
                   Calls := Calls s ++ [c]; Defers := Defers s |}).

Definition run_deferred `{Wire} (d : Deferred) (s : State) : State :=
  match d with
  | Body_Close => {| Writer := Writer s; BodyClosed := true;
                     Calls := Calls s; Defers := Defers s |}
  end.

(** A handler run on a request that has just arrived: from the writer [w],
    the body open and no call made, through the handler's body, then the
    deferred calls, latest first. *)
Definition serve `{Wire} (h : Handler unit) (w : http.ResponseWriter) : State :=
  let s := (h {| Writer := w; BodyClosed := false; Calls := []; Defers := [] |}).2 in
  foldl (λ s d, run_deferred d s)
    {| Writer := Writer s; BodyClosed := BodyClosed s; Calls := Calls s; Defers := [] |}
    (Defers s).

(** Modelled from the spec: [renderErrorResponse(w, msg, status)], the
    renderer of three arguments that the handlers call, is not among the
    sources (rest.go has the renderer that takes a context and an error).
    As the spec's error renderer does in its steps 1 and 5, the body's error
    text is the caller-supplied message and the body goes to the response
    renderer, here with the status the caller passes. *)
Definition renderErrorResponse (w : http.ResponseWriter) (msg : string) (status : Z)
    : http.ResponseWriter :=
  rest.renderResponse w {| rest.Error_ := msg; rest.Validations := ∅ |} status.

Section Handlers.
Context `{Wire}.
Context `{!json.Unmarshaler CreateTasksRequest.t, !json.Unmarshaler UpdateTasksRequest.t}.

Definition create (t : TaskHandler) (r : http.Request.t) : Handler unit :=
  match json.Decode (A := CreateTasksRequest.t) (http.Request.Body r) with
  | None =>
      respond (λ w, renderErrorResponse w "invalid request" http.StatusBadRequest)
  | Some req =>
      defer Body_Close;;
      let description := CreateTasksRequest.Description req in
      let priority := Priority_Convert (CreateTasksRequest.Priority req) in
      let dates := Dates_Convert (CreateTasksRequest.Dates req) in
      '(task, err) ← invoke (CallCreate description priority dates)
                       (TaskService.Create (svc t) description priority dates);
      match err with
      | Some _ =>
          respond (λ w, renderErrorResponse w "create failed" http.StatusInternalServerError)
      | None =>
          respond (λ w, rest.renderResponse w
            {| CreateTasksResponse.Task :=
                 {| Task.ID := internal.ID task;
                    Task.Description := internal.Description task;
                    Task.Priority := NewPriority (internal.Priority_ task);
                    Task.Dates := NewDates (internal.Dates_ task) |} |}
            http.StatusCreated)
      end
  end.

Definition task (t : TaskHandler) (r : http.Request.t) : Handler unit :=
  let id := default EmptyString (mux.Vars r !! "id") in
  '(task, err) ← invoke (CallTask id) (TaskService.Task (svc t) id);
  match err with
  | Some _ =>
      respond (λ w, renderErrorResponse w "find failed" http.StatusInternalServerError)
  | None =>
      respond (λ w, rest.renderResponse w
        {| ReadTasksResponse.Task :=
             {| Task.ID := internal.ID task;
                Task.Description := internal.Description task;
                Task.Priority := NewPriority (internal.Priority_ task);
                Task.Dates := NewDates (internal.Dates_ task) |} |}
        http.StatusOK)
  end.

Definition update (t : TaskHandler) (r : http.Request.t) : Handler unit :=
  match json.Decode (A := UpdateTasksRequest.t) (http.Request.Body r) with
  | None =>
      respond (λ w, renderErrorResponse w "invalid request" http.StatusBadRequest)
  | Some req =>
      defer Body_Close;;
      let id := default EmptyString (mux.Vars r !! "id") in
      let description := UpdateTasksRequest.Description req in
      let priority := Priority_Convert (UpdateTasksRequest.Priority req) in
      let dates := Dates_Convert (UpdateTasksRequest.Dates req) in
      let isDone := UpdateTasksRequest.IsDone req in
      err ← invoke (CallUpdate id description priority dates isDone)
              (TaskService.Update (svc t) id description priority dates isDone);
      match err with
      | Some _ =>
          respond (λ w, renderErrorResponse w "update failed" http.StatusInternalServerError)
      | None =>
          respond (λ w, rest.renderResponse w emptyStruct http.StatusOK)
      end
  end.

(** [Register]: the three routes, in the order of the source. *)
Definition Register (t : TaskHandler) (r : mux.Router (http.Request.t → Handler unit))
    : mux.Router (http.Request.t → Handler unit) :=
  let r := mux.HandleFunc "/tasks" (create t) [http.MethodPost] r in
  let r := mux.HandleFunc ("/tasks/{id:" +:+ uuidRegEx +:+ "}") (task t) [http.MethodGet] r in
  let r := mux.HandleFunc ("/tasks/{id:" +:+ uuidRegEx +:+ "}") (update t) [http.MethodPut] r in
  r.

End Handlers.

End tasks.

(** ** Test doubles and sample data *)

Module resttesting.
Import internal tasks.

(** Dates on the wire in the examples: a start and a due date. *)
Record SampleDates : Type := mkSampleDates {
  start : string;
  due : string
}.

#[global] Instance SampleDates_Marshaler : json.Marshaler SampleDates := λ d,
  json.struct [json.field "start" (start d); json.field "due" (due d)].

(** Wire types for the examples: a priority is a string, dates are a pair
    of strings, and the domain types are the same as the wire types. *)
Definition wire : Wire :=
  {| Priority := string;
     Dates := SampleDates;
     internal_Priority := string;
     internal_Dates := SampleDates;
     Priority_Convert := id;
     Dates_Convert := id;
     NewPriority := id;
     NewDates := id;
     Priority_Marshaler := json.string_Marshaler;
     Dates_Marshaler := SampleDates_Marshaler |}.

Definition sample_dates : SampleDates :=
  {| start := "2021-01-01"; due := "2021-01-31" |}.

(** A well-formed body of a create request, and what it decodes to. *)
Definition create_body : string :=
  json.text
    "{'description':'write the spec','priority':'high','dates':{'start':'2021-01-01','due':'2021-01-31'}}".

Definition create_request : @CreateTasksRequest.t wire :=
  {| CreateTasksRequest.Description := "write the spec";
     CreateTasksRequest.Priority := "high" : @Priority wire;
     CreateTasksRequest.Dates := sample_dates : @Dates wire |}.

(** A well-formed body of an update request, and what it decodes to. *)
Definition update_body : string :=
  json.text
    "{'description':'write the spec','is_done':true,'priority':'high','dates':{'start':'2021-01-01','due':'2021-01-31'}}".

Definition update_request : @UpdateTasksRequest.t wire :=
  {| UpdateTasksRequest.Description := "write the spec";
     UpdateTasksRequest.IsDone := true;
     UpdateTasksRequest.Priority := "high" : @Priority wire;
     UpdateTasksRequest.Dates := sample_dates : @Dates wire |}.

(** How a value is stored into a request in the examples: each of the two
    stores the one well-formed object above, and reports an error for any
    other value. *)
Definition decode_create : json.Unmarshaler (@CreateTasksRequest.t wire) := λ value,
  if decide (value = create_body) then Some create_request else None.

Definition decode_update : json.Unmarshaler (@UpdateTasksRequest.t wire) := λ value,
  if decide (value = update_body) then Some update_request else None.

(** A body that is not JSON: an object left open. *)
Definition broken_body : string := "{".

(** A fake service that returns what it is told to, whatever it is called
    with. *)
Definition FakeTaskService
    (createReturns taskReturns : internal.Task string SampleDates * option error)
    (updateReturns : option error) : @TaskService.t wire :=
  @TaskService.mk wire
    (λ _ _ _, createReturns)
    (λ _, taskReturns)
    (λ _ _ _ _ _, updateReturns).

Definition no_task : internal.Task string SampleDates :=
  mkTask EmptyString EmptyString EmptyString (mkSampleDates EmptyString EmptyString).

(** A service that stores what it is given under the ID [abc-123]. *)
Definition storing_service : @TaskService.t wire :=
  @TaskService.mk wire
    (λ description priority dates, (mkTask "abc-123" description priority dates, None))
    (λ id, (mkTask id "stored" "low" sample_dates, None))
    (λ _ _ _ _ _, None).

(** A service whose [Create] trims the description it stores. *)
Definition trimming_service : @TaskService.t wire :=
  FakeTaskService (mkTask "abc-123" "spec" "high" sample_dates, None) (no_task, None) None.

(** An error of the domain: the task is not there. *)
Definition not_found : error :=
  ptrError (mkError (Some (errorString "sql: no rows in result set")) "task 42" ErrorCodeNotFound).

(** An error of the domain: the description is missing. *)
Definition description_required : error :=
  ptrError
    (mkError (Some (validationErrors {["description" := validation.Message "required"]}))
       "invalid arguments" ErrorCodeInvalidArgument).

(** A service whose every operation fails with the given error. *)
Definition failing_service (e : error) : @TaskService.t wire :=
  FakeTaskService (no_task, Some e) (no_task, Some e) (Some e).

(** A request for the task [id], with a body. *)
Definition request (body id : string) : http.Request.t :=
  {| http.Request.Body := body; http.Request.Vars := {["id" := id]} |}.

Definition sample_id : string := "123e4567-e89b-12d3-a456-426614174000".

(** A value [json.Marshal] reports an error for, such as a channel. *)
Inductive Unsupported : Type := unsupported.

#[global] Instance Unsupported_Marshaler : json.Marshaler Unsupported := λ _, None.

End resttesting.

(** ** The UUID shape, in the spec's words *)

Definition is_hex (c : ascii) : bool :=
  mux.is_digit c
  || ((97 <=? N_of_ascii c)%N && (N_of_ascii c <=? 102)%N)
  || ((65 <=? N_of_ascii c)%N && (N_of_ascii c <=? 70)%N).

(** The canonical 8-4-4-4-12 shape: five groups of hexadecimal digits, of
    8, 4, 4, 4 and 12 digits, with a hyphen between two groups. *)
Definition uuid_shape (id : string) : Prop :=
  ∃ g1 g2 g3 g4 g5 : list ascii,
    list_ascii_of_string id =
      g1 ++ "-"%char :: g2 ++ "-"%char :: g3 ++ "-"%char :: g4 ++ "-"%char :: g5
    ∧ length <$> [g1; g2; g3; g4; g5] = [8; 4; 4; 4; 12]%nat
    ∧ Forall (λ c, is_hex c = true) (g1 ++ g2 ++ g3 ++ g4 ++ g5).

(** ** The pattern of the routes, compiled *)

Definition hex_class : mux.atom :=
  mux.Class [("0"%char, "9"%char); ("a"%char, "f"%char); ("A"%char, "F"%char)].

(** What [uuidRegEx] reads as: five runs of the class, of 8, 4, 4, 4 and 12
    characters, with a literal hyphen between two runs. *)
Definition uuid_regexp : mux.regexp :=
  [(hex_class, 8); (mux.Literal "-", 1); (hex_class, 4); (mux.Literal "-", 1);
   (hex_class, 4); (mux.Literal "-", 1); (hex_class, 4); (mux.Literal "-", 1);
   (hex_class, 12)]%nat.

(** * Properties *)

#[global] Arguments rest.renderResponse : simpl never.
#[global] Arguments tasks.renderErrorResponse : simpl never.

(** ** The response renderer *)

Section Renderer.
Context {A : Type} `{!json.Marshaler A}.
Implicit Types (w : http.ResponseWriter) (res : A) (status : Z).

Lemma renderResponse_encoded w res status content :
  http.Code w = None →
  json.Marshal res = Some content →
  rest.renderResponse w res status =
    {| http.Header := <["Content-Type" := ["application/json"]]> (http.Header w);
       http.Code := Some status;
       http.Body := http.Body w +:+ content |}.
Proof.
  intros Hfresh Hres. unfold rest.renderResponse. rewrite Hres.
  unfold http.Write, http.WriteHeader, http.Header_Set. rewrite Hfresh. reflexivity.
Qed.

Lemma renderResponse_not_encoded w res status :
  http.Code w = None →
  json.Marshal res = None →
  rest.renderResponse w res status =
    {| http.Header := <["Content-Type" := ["application/json"]]> (http.Header w);
       http.Code := Some http.StatusInternalServerError;
       http.Body := http.Body w |}.
Proof.
  intros Hfresh Hres. unfold rest.renderResponse. rewrite Hres.
  unfold http.WriteHeader, http.Header_Set. rewrite Hfresh. reflexivity.
Qed.

(** C8.  On a writer whose status line is not out yet, [renderResponse]
    sets the Content-Type header to application/json whatever the value and
    the status; when the value is encoded, the given status and the encoded
    bytes are written; when the encoding fails, status 500 is written and no
    byte of body. *)
Theorem renderResponse_contract w res status :
  http.Code w = None →
  let w' := rest.renderResponse w res status in
  http.Header w' !! "Content-Type" = Some ["application/json"]
  ∧ match json.Marshal res with
    | Some content =>
        http.Code w' = Some status ∧ http.Body w' = http.Body w +:+ content
    | None =>
        http.Code w' = Some http.StatusInternalServerError ∧ http.Body w' = http.Body w
    end.
Proof.
  intros Hfresh w'. subst w'.
  destruct (json.Marshal res) as [content|] eqn:Hres.
  - rewrite (renderResponse_encoded _ _ _ content Hfresh Hres). simpl.
    split; [apply lookup_insert_eq | auto].
  - rewrite (renderResponse_not_encoded _ _ _ Hfresh Hres). simpl.
    split; [apply lookup_insert_eq | auto].
Qed.

End Renderer.

(** ** The error renderer of rest.go *)

Section ErrorRenderer.
Import internal.
Implicit Types (ctx : trace.Context) (w : http.ResponseWriter) (msg : string).
Implicit Types (err : option error) (e : error) (ierr : Error).

Lemma Marshal_error_only msg :
  json.Marshal {| rest.Error_ := msg; rest.Validations := ∅ |}
  = Some (json.object [("error", json.quote msg)]).
Proof.
  unfold json.Marshal, json.MarshalJSON, rest.ErrorResponse_Marshaler. simpl.
  rewrite decide_True by apply map_size_empty. reflexivity.
Qed.

Lemma Marshal_error_validations msg (verrors : validation.Errors) :
  verrors ≠ ∅ →
  json.Marshal {| rest.Error_ := msg; rest.Validations := verrors |}
  = Some (json.object
            [("error", json.quote msg);
             ("validations", validation.encode (validation.Nested verrors))]).
Proof.
  intros Hne.
  unfold json.Marshal, json.MarshalJSON, rest.ErrorResponse_Marshaler. simpl.
  rewrite decide_False by (by rewrite map_size_empty_iff). reflexivity.
Qed.

(** An [ErrorResponse] is always encoded. *)
Lemma Marshal_ErrorResponse_total (resp : rest.ErrorResponse) :
  ∃ content, json.Marshal resp = Some content.
Proof.
  destruct resp as [msg verrors].
  destruct (decide (size verrors = 0%nat)) as [Hempty|Hne].
  - apply map_size_empty_iff in Hempty as ->. eexists. apply Marshal_error_only.
  - eexists. apply Marshal_error_validations. by rewrite <- map_size_empty_iff.
Qed.

(** The writer the error renderer leaves is the response renderer's, on the
    body and the status settled from the error. *)
Lemma renderErrorResponse_writer ctx w msg err :
  (rest.renderErrorResponse ctx w msg err).2
  = rest.renderResponse w (rest.errorResponseOf msg err).1 (rest.errorResponseOf msg err).2.
Proof.
  unfold rest.renderErrorResponse.
  destruct (rest.errorResponseOf msg err) as [resp status].
  destruct err; reflexivity.
Qed.

(** The status settled from the error is the one written. *)
Lemma renderErrorResponse_status ctx w msg err :
  http.Code w = None →
  http.Code (rest.renderErrorResponse ctx w msg err).2
  = Some (rest.errorResponseOf msg err).2.
Proof.
  intros Hfresh. rewrite renderErrorResponse_writer.
  destruct (Marshal_ErrorResponse_total (rest.errorResponseOf msg err).1) as [content Hc].
  rewrite (renderResponse_encoded _ _ _ content Hfresh Hc). reflexivity.
Qed.

(** Below the first [*internal.Error] of a chain lies every
    [validation.Errors] of the chain. *)
Lemma As_Errors_below_As_Error e ierr :
  errors.As_Error (Some e) = Some ierr →
  errors.As_Errors (ptrError ierr) = errors.As_Errors e.
Proof.
  simpl. induction e as [s|m inner IH|ie|es]; simpl; intros Hchain.
  - discriminate.
  - apply IH, Hchain.
  - injection Hchain as ->. reflexivity.
  - discriminate.
Qed.

(** C3.  An error without a domain classification (no [*internal.Error] on
    its chain) is rendered with status 500 and the generic text: the body is
    the one object with the error text [internal error], whatever the
    caller's message and the error are. *)
Theorem unclassified_error_renders_internal_error ctx w msg err :
  http.Code w = None →
  errors.As_Error err = None →
  let w' := (rest.renderErrorResponse ctx w msg err).2 in
  rest.Error_ (rest.errorResponseOf msg err).1 = "internal error"
  ∧ http.Code w' = Some http.StatusInternalServerError
  ∧ http.Body w' = http.Body w +:+ json.text "{'error':'internal error'}".
Proof.
  intros Hfresh Hnone w'. subst w'.
  rewrite renderErrorResponse_writer.
  unfold rest.errorResponseOf. rewrite Hnone. simpl.
  rewrite (renderResponse_encoded _ _ _ _ Hfresh (Marshal_error_only "internal error")).
  simpl. auto.
Qed.

(** C10.  A nil error has no classification: [errors.As] reports false, the
    caller's message is dropped for the generic text, the status is 500, and
    nothing is recorded on a span. *)
Theorem nil_error_renders_internal_error ctx w msg :
  http.Code w = None →
  errors.As_Error None = None
  ∧ rest.renderErrorResponse ctx w msg None
    = (ctx,
       {| http.Header := <["Content-Type" := ["application/json"]]> (http.Header w);
          http.Code := Some http.StatusInternalServerError;
          http.Body := http.Body w +:+ json.text "{'error':'internal error'}" |}).
Proof.
  intros Hfresh. split; [reflexivity|].
  unfold rest.renderErrorResponse, rest.errorResponseOf. simpl.
  rewrite (renderResponse_encoded _ _ _ _ Hfresh (Marshal_error_only "internal error")).
  rewrite app_nil_r. reflexivity.
Qed.

(** The body for invalid-argument on the wire: a map with entries is the
    member [validations] of the object, after the member [error]. *)
Lemma invalid_argument_body ctx w msg e ierr (verrors : validation.Errors) :
  http.Code w = None →
  errors.As_Error (Some e) = Some ierr →
  Code ierr = ErrorCodeInvalidArgument →
  errors.As_Errors e = Some verrors →
  verrors ≠ ∅ →
  http.Body (rest.renderErrorResponse ctx w msg (Some e)).2
  = http.Body w +:+
    json.object
      [("error", json.quote msg);
       ("validations", validation.encode (validation.Nested verrors))].
Proof.
  intros Hfresh Hierr Hcode Hfound Hne.
  rewrite renderErrorResponse_writer.
  pose proof (As_Errors_below_As_Error _ _ Hierr) as Hbelow.
  unfold rest.errorResponseOf. rewrite Hierr, Hcode, Hbelow, Hfound. simpl.
  rewrite (renderResponse_encoded _ _ _ _ Hfresh (Marshal_error_validations msg verrors Hne)).
  reflexivity.
Qed.

(** The body for invalid-argument when there is nothing to list: no map on
    the chain, or a map without entries. *)
Lemma invalid_argument_body_plain ctx w msg e ierr :
  http.Code w = None →
  errors.As_Error (Some e) = Some ierr →
  Code ierr = ErrorCodeInvalidArgument →
  errors.As_Errors e = None ∨ errors.As_Errors e = Some ∅ →
  http.Body (rest.renderErrorResponse ctx w msg (Some e)).2
  = http.Body w +:+ json.object [("error", json.quote msg)].
Proof.
  intros Hfresh Hierr Hcode Hnone.
  rewrite renderErrorResponse_writer.
  pose proof (As_Errors_below_As_Error _ _ Hierr) as Hbelow.
  unfold rest.errorResponseOf. rewrite Hierr, Hcode, Hbelow.
  destruct Hnone as [-> | ->]; simpl;
    rewrite (renderResponse_encoded _ _ _ _ Hfresh (Marshal_error_only msg)); reflexivity.
Qed.

(** What C4 holds on the code: an error classified as invalid-argument is
    answered with status 400; when it carries a map of field-level failures
    with at least one entry, the body is the object of the member [error],
    the caller's message, and the member [validations], that map; when it
    carries no map, or a map without entries, the body has the member
    [error] alone. *)
Theorem invalid_argument_renders_400_with_validations ctx w msg e ierr :
  http.Code w = None →
  errors.As_Error (Some e) = Some ierr →
  Code ierr = ErrorCodeInvalidArgument →
  let w' := (rest.renderErrorResponse ctx w msg (Some e)).2 in
  http.Code w' = Some http.StatusBadRequest
  ∧ (∀ verrors,
       errors.As_Errors e = Some verrors →
       verrors ≠ ∅ →
       http.Body w' =
         http.Body w +:+
         json.object
           [("error", json.quote msg);
            ("validations", validation.encode (validation.Nested verrors))])
  ∧ (errors.As_Errors e = None ∨ errors.As_Errors e = Some ∅ →
     http.Body w' = http.Body w +:+ json.object [("error", json.quote msg)]).
Proof.
  intros Hfresh Hierr Hcode w'. subst w'. split; [|split].
  - rewrite (renderErrorResponse_status _ _ _ _ Hfresh).
    unfold rest.errorResponseOf. rewrite Hierr, Hcode.
    destruct (errors.As_Errors (ptrError ierr)); reflexivity.
  - intros verrors Hfound Hne.
    exact (invalid_argument_body ctx w msg e ierr verrors Hfresh Hierr Hcode Hfound Hne).
  - intros Hnone.
    exact (invalid_argument_body_plain ctx w msg e ierr Hfresh Hierr Hcode Hnone).
Qed.

(** X2.  An error classified as not-found is rendered with status 404 and
    the caller's message, as the one member of the body. *)
Lemma not_found_renders_404 ctx w msg e ierr :
  http.Code w = None →
  errors.As_Error (Some e) = Some ierr →
  Code ierr = ErrorCodeNotFound →
  let w' := (rest.renderErrorResponse ctx w msg (Some e)).2 in
  http.Code w' = Some http.StatusNotFound
  ∧ http.Body w' = http.Body w +:+ json.object [("error", json.quote msg)].
Proof.
  intros Hfresh Hierr Hcode w'. subst w'.
  rewrite renderErrorResponse_writer.
  unfold rest.errorResponseOf. rewrite Hierr, Hcode. simpl.
  rewrite (renderResponse_encoded _ _ _ _ Hfresh (Marshal_error_only msg)).
  auto.
Qed.

End ErrorRenderer.

(** ** The decoder *)

Section Decoder.

(** An input the decoder reads no value from is not JSON. *)
Lemma Valid_from_unreadable s seen data :
  json.readValue_from s seen data = None → json.Valid_from s data = false.
Proof.
  revert s seen. induction data as [|c data IH]; intros s seen; simpl.
  - destruct s as [st ps].
    destruct st;
      try solve [destruct ps as [|[] ps]; cbn; first [discriminate | reflexivity]].
    unfold json.scan. cbn [json.state json.parseState].
    destruct togo as [|x togo]; [cbn; reflexivity|].
    destruct (Ascii.eqb " " x); [|cbn; reflexivity].
    destruct togo; cbn; first [discriminate | reflexivity].
  - destruct (json.scan s c) as [[] s'].
    + apply IH.
    + destruct (json.parseState s'); [discriminate | apply IH].
    + discriminate.
    + reflexivity.
Qed.

Lemma unreadable_body_is_invalid body :
  json.readValue body = None → json.Valid body = false.
Proof.
  unfold json.readValue, json.Valid. intros Hread.
  apply fmap_None in Hread. exact (Valid_from_unreadable _ _ _ Hread).
Qed.

(** Such an input is rejected whatever the target is. *)
Lemma unreadable_body_is_rejected {A} `{!json.Unmarshaler A} body :
  json.readValue body = None → json.Decode (A := A) body = None.
Proof. unfold json.Decode. intros ->. reflexivity. Qed.

End Decoder.

(** ** The handlers *)

Section HandlerProperties.
Import internal tasks.
Context `{Wire}.
Context `{!json.Unmarshaler CreateTasksRequest.t, !json.Unmarshaler UpdateTasksRequest.t}.
Implicit Types (t : TaskHandler) (r : http.Request.t) (w : http.ResponseWriter).

(** Unfolds a handler run down to the renderer calls. *)
Ltac run_handler :=
  cbv beta iota zeta delta
    [serve create task update mbind Handler_bind invoke respond defer run_deferred
     foldl snd Writer BodyClosed Calls Defers].

(** The three-argument renderer on a fresh writer: the status it is given,
    and the one-member object of the message. *)
Lemma renderErrorResponse_fresh w msg status :
  http.Code w = None →
  renderErrorResponse w msg status =
    {| http.Header := <["Content-Type" := ["application/json"]]> (http.Header w);
       http.Code := Some status;
       http.Body := http.Body w +:+ json.object [("error", json.quote msg)] |}.
Proof.
  intros Hfresh. unfold renderErrorResponse.
  apply renderResponse_encoded; [assumption | apply Marshal_error_only].
Qed.

(** The encoding of a wire [Task], given those of its priority and dates. *)
Lemma Marshal_Task (v : Task.t) p d :
  json.Marshal (Task.Priority v) = Some p →
  json.Marshal (Task.Dates v) = Some d →
  json.Marshal v
  = Some (json.object
            [("id", json.quote (Task.ID v));
             ("description", json.quote (Task.Description v));
             ("priority", p);
             ("dates", d)]).
Proof.
  intros Hp Hd.
  unfold json.Marshal at 1. unfold json.MarshalJSON at 1.
  unfold Task_Marshaler, json.struct, json.field.
  rewrite Hp, Hd. reflexivity.
Qed.

Lemma Marshal_CreateTasksResponse (v : CreateTasksResponse.t) content :
  json.Marshal (CreateTasksResponse.Task v) = Some content →
  json.Marshal v = Some (json.object [("task", content)]).
Proof.
  intros Hc.
  unfold json.Marshal at 1. unfold json.MarshalJSON at 1.
  unfold CreateTasksResponse_Marshaler, json.struct, json.field.
  rewrite Hc. reflexivity.
Qed.

(** What C2 holds on the code: when the decoder reports an error for the
    body of a create or an update request, the handler answers status 400
    with the body [{"error":"invalid request"}], and no operation of the
    service is called.  The decoder reports an error, whatever the target,
    for every body it reads no complete value from, and such a body is not
    JSON; it does not look at what follows the first value. *)
Theorem invalid_body_answers_400_without_service t r w :
  http.Code w = None →
  (json.Decode (A := CreateTasksRequest.t) (http.Request.Body r) = None →
   let s := serve (create t r) w in
   http.Code (Writer s) = Some http.StatusBadRequest
   ∧ http.Body (Writer s) = http.Body w +:+ json.text "{'error':'invalid request'}"
   ∧ Calls s = [])
  ∧ (json.Decode (A := UpdateTasksRequest.t) (http.Request.Body r) = None →
     let s := serve (update t r) w in
     http.Code (Writer s) = Some http.StatusBadRequest
     ∧ http.Body (Writer s) = http.Body w +:+ json.text "{'error':'invalid request'}"
     ∧ Calls s = [])
  ∧ (json.readValue (http.Request.Body r) = None →
     json.Valid (http.Request.Body r) = false
     ∧ json.Decode (A := CreateTasksRequest.t) (http.Request.Body r) = None
     ∧ json.Decode (A := UpdateTasksRequest.t) (http.Request.Body r) = None).
Proof.
  intros Hfresh. split; [|split].
  - intros Hdecode; run_handler; rewrite Hdecode; run_handler;
      rewrite (renderErrorResponse_fresh _ _ _ Hfresh); auto.
  - intros Hdecode; run_handler; rewrite Hdecode; run_handler;
      rewrite (renderErrorResponse_fresh _ _ _ Hfresh); auto.
  - intros Hread. split; [apply unreadable_body_is_invalid, Hread|].
    split; apply unreadable_body_is_rejected, Hread.
Qed.

(** C6.  When the body of an update request decodes and the service's
    [Update] returns no error, the handler answers status 200 and the body
    is the empty object, nothing else. *)
Theorem update_success_renders_empty_object t r w req :
  http.Code w = None →
  json.Decode (http.Request.Body r) = Some req →
  TaskService.Update (svc t)
    (default EmptyString (mux.Vars r !! "id"))
    (UpdateTasksRequest.Description req)
    (Priority_Convert (UpdateTasksRequest.Priority req))
    (Dates_Convert (UpdateTasksRequest.Dates req))
    (UpdateTasksRequest.IsDone req) = None →
  let s := serve (update t r) w in
  http.Code (Writer s) = Some http.StatusOK
  ∧ http.Body (Writer s) = http.Body w +:+ "{}".
Proof.
  intros Hfresh Hdecode Hupdate. run_handler. rewrite Hdecode. run_handler.
  rewrite Hupdate. run_handler.
  rewrite (renderResponse_encoded w emptyStruct _ "{}" Hfresh eq_refl). auto.
Qed.

(** What C5 holds on the code: when the body of a create request decodes
    and the service's [Create] returns a task and no error, the handler
    renders with status 201 the object [task] whose id, description,
    priority and dates are those of the task the service returned, the
    priority and the dates converted to their wire form. *)
Theorem create_success_renders_returned_task t r w req tk :
  http.Code w = None →
  json.Decode (http.Request.Body r) = Some req →
  TaskService.Create (svc t)
    (CreateTasksRequest.Description req)
    (Priority_Convert (CreateTasksRequest.Priority req))
    (Dates_Convert (CreateTasksRequest.Dates req)) = (tk, None) →
  let s := serve (create t r) w in
  let priority := NewPriority (internal.Priority_ tk) in
  let dates := NewDates (internal.Dates_ tk) in
  Writer s =
    rest.renderResponse w
      {| CreateTasksResponse.Task :=
           {| Task.ID := internal.ID tk;
              Task.Description := internal.Description tk;
              Task.Priority := priority;
              Task.Dates := dates |} |}
      http.StatusCreated
  ∧ ∀ p d,
      json.Marshal priority = Some p →
      json.Marshal dates = Some d →
      http.Code (Writer s) = Some http.StatusCreated
      ∧ http.Body (Writer s) =
          http.Body w +:+
          json.object
            [("task",
              json.object
                [("id", json.quote (internal.ID tk));
                 ("description", json.quote (internal.Description tk));
                 ("priority", p);
                 ("dates", d)])].
Proof.
  intros Hfresh Hdecode Hcreate s priority dates. subst s priority dates.
  run_handler. rewrite Hdecode. run_handler. rewrite Hcreate. run_handler.
  split; [reflexivity|]. intros p d Hp Hd.
  erewrite renderResponse_encoded; [simpl; split; reflexivity | assumption |].
  apply Marshal_CreateTasksResponse. cbn [CreateTasksResponse.Task].
  exact (Marshal_Task
           {| Task.ID := internal.ID tk;
              Task.Description := internal.Description tk;
              Task.Priority := NewPriority (internal.Priority_ tk);
              Task.Dates := NewDates (internal.Dates_ tk) |}
           p d Hp Hd).
Qed.

(** What C1 holds on the code: when the service's [Task] returns an error,
    of whatever classification, the fetch handler answers status 500 with
    the body [{"error":"find failed"}]; neither depends on the error. *)
Theorem fetch_failure_renders_find_failed t r w tk e :
  http.Code w = None →
  TaskService.Task (svc t) (default EmptyString (mux.Vars r !! "id")) = (tk, Some e) →
  let s := serve (task t r) w in
  http.Code (Writer s) = Some http.StatusInternalServerError
  ∧ http.Body (Writer s) = http.Body w +:+ json.text "{'error':'find failed'}".
Proof.
  intros Hfresh Htask. run_handler. rewrite Htask. run_handler.
  rewrite (renderErrorResponse_fresh _ _ _ Hfresh). auto.
Qed.

(** When the decoder reports an error, [create] and [update] return before
    the deferred [Close] is registered: the body is left open. *)
Lemma decode_failure_leaves_body_open t r w :
  (json.Decode (A := CreateTasksRequest.t) (http.Request.Body r) = None →
   BodyClosed (serve (create t r) w) = false)
  ∧ (json.Decode (A := UpdateTasksRequest.t) (http.Request.Body r) = None →
     BodyClosed (serve (update t r) w) = false).
Proof.
  split; intros Hdecode; run_handler; rewrite Hdecode; reflexivity.
Qed.

(** When the body decodes, [create] and [update] close it on their way out,
    whatever the service returns. *)
Lemma decode_success_closes_body t r w :
  (is_Some (json.Decode (A := CreateTasksRequest.t) (http.Request.Body r)) →
   BodyClosed (serve (create t r) w) = true)
  ∧ (is_Some (json.Decode (A := UpdateTasksRequest.t) (http.Request.Body r)) →
     BodyClosed (serve (update t r) w) = true).
Proof.
  split; intros [req Hdecode]; run_handler; rewrite Hdecode; run_handler.
  - destruct (TaskService.Create _ _ _ _) as [tk [e|]]; reflexivity.
  - destruct (TaskService.Update _ _ _ _ _ _) as [e|]; reflexivity.
Qed.

End HandlerProperties.

(** ** The properties at sample inputs *)

Section Samples.
Import internal tasks resttesting.
#[local] Existing Instances wire decode_create decode_update.

(** C8 at the empty struct and status 200, on a new writer. *)
Lemma renderResponse_contract_witness :
  let w' := rest.renderResponse http.NewRecorder emptyStruct http.StatusOK in
  http.Header w' !! "Content-Type" = Some ["application/json"]
  ∧ http.Code w' = Some http.StatusOK
  ∧ http.Body w' = http.Body http.NewRecorder +:+ "{}".
Proof.
  exact (renderResponse_contract http.NewRecorder emptyStruct http.StatusOK eq_refl).
Defined.

(** A value that is not encoded: status 500 and an empty body. *)
Lemma renderResponse_unsupported :
  let w' := rest.renderResponse http.NewRecorder unsupported http.StatusOK in
  http.Header w' !! "Content-Type" = Some ["application/json"]
  ∧ http.Code w' = Some http.StatusInternalServerError
  ∧ http.Body w' = EmptyString.
Proof. vm_compute. auto. Qed.

(** C3 at an error of the database driver, passed by a caller whose message
    is [create failed]. *)
Lemma unclassified_error_renders_internal_error_witness :
  let err := Some (wrapError "insert task" (errorString "dial tcp: connection refused")) in
  let w' := (rest.renderErrorResponse [] http.NewRecorder "create failed" err).2 in
  rest.Error_ (rest.errorResponseOf "create failed" err).1 = "internal error"
  ∧ http.Code w' = Some http.StatusInternalServerError
  ∧ http.Body w' = http.Body http.NewRecorder +:+ json.text "{'error':'internal error'}".
Proof.
  exact (unclassified_error_renders_internal_error [] http.NewRecorder "create failed"
           (Some (wrapError "insert task" (errorString "dial tcp: connection refused")))
           eq_refl eq_refl).
Defined.

(** C10 on a new writer, for a caller whose message is [find failed]. *)
Lemma nil_error_renders_internal_error_witness :
  errors.As_Error None = None
  ∧ rest.renderErrorResponse [] http.NewRecorder "find failed" None
    = ([],
       {| http.Header :=
            <["Content-Type" := ["application/json"]]> (http.Header http.NewRecorder);
          http.Code := Some http.StatusInternalServerError;
          http.Body := http.Body http.NewRecorder +:+ json.text "{'error':'internal error'}" |}).
Proof.
  exact (nil_error_renders_internal_error [] http.NewRecorder "find failed" eq_refl).
Defined.

(** The amended C4 at the spec's example: the description is required. *)
Lemma invalid_argument_renders_400_with_validations_witness :
  let w' := (rest.renderErrorResponse [] http.NewRecorder "create failed"
               (Some description_required)).2 in
  http.Code w' = Some http.StatusBadRequest
  ∧ http.Body w'
    = json.text "{'error':'create failed','validations':{'description':'required'}}".
Proof.
  pose proof (invalid_argument_renders_400_with_validations [] http.NewRecorder
                "create failed" description_required
                (mkError
                   (Some (validationErrors {["description" := validation.Message "required"]}))
                   "invalid arguments" ErrorCodeInvalidArgument)
                eq_refl eq_refl eq_refl) as (Hstatus & Hbody & _).
  split; [exact Hstatus|].
  refine (Hbody {["description" := validation.Message "required"]} eq_refl _).
  intros Hempty. apply (f_equal (λ m : validation.Errors, m !! "description")) in Hempty.
  vm_compute in Hempty. discriminate.
Defined.

(** C4 fails at an invalid-argument error whose map of failures has no
    entry: the error carries a map, and the body has no member
    [validations]. *)
Lemma empty_validations_are_left_out :
  let e := ptrError (mkError (Some (validationErrors ∅)) "invalid arguments"
                       ErrorCodeInvalidArgument) in
  let w' := (rest.renderErrorResponse [] http.NewRecorder "create failed" (Some e)).2 in
  (∃ ierr, errors.As_Error (Some e) = Some ierr ∧ Code ierr = ErrorCodeInvalidArgument)
  ∧ errors.As_Errors e = Some ∅
  ∧ http.Code w' = Some http.StatusBadRequest
  ∧ http.Body w' = json.text "{'error':'create failed'}"
  ∧ http.Body w' ≠ json.text "{'error':'create failed','validations':{}}".
Proof.
  split; [eexists; split; reflexivity|].
  split; [reflexivity|].
  split; [vm_compute; reflexivity|].
  split; [vm_compute; reflexivity|].
  vm_compute. discriminate.
Qed.

(** Failures of a nested struct are written as a nested object. *)
Lemma nested_validations_body :
  let verrors : validation.Errors :=
    {["title" := validation.Message "required";
      "dates" := validation.Nested {["due" := validation.Message "must be after start"]}]} in
  let e := ptrError (mkError (Some (validationErrors verrors)) "invalid arguments"
                       ErrorCodeInvalidArgument) in
  http.Body (rest.renderErrorResponse [] http.NewRecorder "create failed" (Some e)).2
  = json.text
      "{'error':'create failed','validations':{'dates':{'due':'must be after start'},'title':'required'}}".
Proof. vm_compute. reflexivity. Qed.

(** The body of the spec's example, byte for byte. *)
Lemma description_required_body :
  http.Body (rest.renderErrorResponse [] http.NewRecorder "create failed"
               (Some description_required)).2
  = json.text "{'error':'create failed','validations':{'description':'required'}}".
Proof. vm_compute. reflexivity. Qed.

(** The amended C2 at a body left open after its first brace. *)
Lemma invalid_body_answers_400_without_service_witness :
  let t := NewTaskHandler storing_service in
  let r := request broken_body sample_id in
  (let s := serve (create t r) http.NewRecorder in
   http.Code (Writer s) = Some http.StatusBadRequest
   ∧ http.Body (Writer s)
     = http.Body http.NewRecorder +:+ json.text "{'error':'invalid request'}"
   ∧ Calls s = [])
  ∧ (let s := serve (update t r) http.NewRecorder in
     http.Code (Writer s) = Some http.StatusBadRequest
     ∧ http.Body (Writer s)
       = http.Body http.NewRecorder +:+ json.text "{'error':'invalid request'}"
     ∧ Calls s = [])
  ∧ json.Valid broken_body = false.
Proof.
  pose proof (invalid_body_answers_400_without_service
                (NewTaskHandler storing_service) (request broken_body sample_id)
                http.NewRecorder eq_refl) as (Hcreate & Hupdate & Hread).
  split; [apply Hcreate; vm_compute; reflexivity|].
  split; [apply Hupdate; vm_compute; reflexivity|].
  apply Hread. vm_compute. reflexivity.
Defined.

(** C2 fails at a body that is not JSON only by what follows its first
    value: a well-formed create request followed by a closing brace.  The
    decoder stores the request, [create] calls the service and answers
    201; [update] does the same on its request and answers 200. *)
Lemma trailing_bytes_are_not_rejected :
  let t := NewTaskHandler storing_service in
  let created := serve (create t (request (create_body +:+ " }") EmptyString))
                   http.NewRecorder in
  let updated := serve (update t (request (update_body +:+ " }") sample_id))
                   http.NewRecorder in
  json.Valid (create_body +:+ " }") = false
  ∧ json.Valid (update_body +:+ " }") = false
  ∧ http.Code (Writer created) = Some http.StatusCreated
  ∧ Calls created = [CallCreate "write the spec" "high" sample_dates]
  ∧ http.Code (Writer updated) = Some http.StatusOK
  ∧ Calls updated = [CallUpdate sample_id "write the spec" "high" sample_dates true].
Proof.
  split; [vm_compute; reflexivity|].
  split; [vm_compute; reflexivity|].
  split; [vm_compute; reflexivity|].
  split; [vm_compute; reflexivity|].
  split; vm_compute; reflexivity.
Qed.

(** C6 at a well-formed update of a stored task. *)
Lemma update_success_renders_empty_object_witness :
  let s := serve (update (NewTaskHandler storing_service) (request update_body sample_id))
             http.NewRecorder in
  http.Code (Writer s) = Some http.StatusOK
  ∧ http.Body (Writer s) = http.Body http.NewRecorder +:+ "{}".
Proof.
  apply (update_success_renders_empty_object
           (NewTaskHandler storing_service) (request update_body sample_id)
           http.NewRecorder update_request); vm_compute; reflexivity.
Defined.

(** The amended C5 at a service that stores what it is given. *)
Lemma create_success_renders_returned_task_witness :
  let t := NewTaskHandler storing_service in
  let s := serve (create t (request create_body EmptyString)) http.NewRecorder in
  http.Code (Writer s) = Some http.StatusCreated
  ∧ http.Body (Writer s)
    = json.text
        "{'task':{'id':'abc-123','description':'write the spec','priority':'high','dates':{'start':'2021-01-01','due':'2021-01-31'}}}".
Proof.
  pose proof (create_success_renders_returned_task
                (NewTaskHandler storing_service) (request create_body EmptyString)
                http.NewRecorder create_request
                (mkTask "abc-123" "write the spec" "high" sample_dates)
                eq_refl eq_refl eq_refl) as [_ Hbody].
  exact (Hbody _ _ eq_refl eq_refl).
Defined.

(** C5 fails where the service returns a task that differs from what it was
    given: the request's description is [write the spec], the service
    stores [spec], and the response carries [spec]. *)
Lemma create_response_does_not_mirror_request :
  let t := NewTaskHandler trimming_service in
  let r := request create_body EmptyString in
  let s := serve (create t r) http.NewRecorder in
  json.Decode (http.Request.Body r) = Some create_request
  ∧ CreateTasksRequest.Description create_request = "write the spec"
  ∧ TaskService.Create (svc t) "write the spec" "high" sample_dates
    = (mkTask "abc-123" "spec" "high" sample_dates, None)
  ∧ http.Code (Writer s) = Some http.StatusCreated
  ∧ http.Body (Writer s)
    = json.text
        "{'task':{'id':'abc-123','description':'spec','priority':'high','dates':{'start':'2021-01-01','due':'2021-01-31'}}}"
  ∧ http.Body (Writer s)
    ≠ json.text
        "{'task':{'id':'abc-123','description':'write the spec','priority':'high','dates':{'start':'2021-01-01','due':'2021-01-31'}}}".
Proof.
  repeat split; try (vm_compute; reflexivity).
  vm_compute. discriminate.
Qed.

(** The amended C1 at a service that reports the task as not found. *)
Lemma fetch_failure_renders_find_failed_witness :
  let t := NewTaskHandler (failing_service not_found) in
  let s := serve (task t (request EmptyString sample_id)) http.NewRecorder in
  http.Code (Writer s) = Some http.StatusInternalServerError
  ∧ http.Body (Writer s) = http.Body http.NewRecorder +:+ json.text "{'error':'find failed'}".
Proof.
  exact (fetch_failure_renders_find_failed
           (NewTaskHandler (failing_service not_found)) (request EmptyString sample_id)
           http.NewRecorder no_task not_found eq_refl eq_refl).
Defined.

(** C1 fails at a fetch whose service call reports not-found: the error is
    classified as not-found, and the handler answers 500, not 404. *)
Lemma fetch_not_found_answers_500 :
  let t := NewTaskHandler (failing_service not_found) in
  let r := request EmptyString sample_id in
  let s := serve (task t r) http.NewRecorder in
  TaskService.Task (svc t) sample_id = (no_task, Some not_found)
  ∧ (∃ ierr, errors.As_Error (Some not_found) = Some ierr ∧ Code ierr = ErrorCodeNotFound)
  ∧ http.Code (Writer s) = Some http.StatusInternalServerError
  ∧ http.Code (Writer s) ≠ Some http.StatusNotFound.
Proof.
  repeat split; try (vm_compute; reflexivity).
  - eexists. split; reflexivity.
  - vm_compute. discriminate.
Qed.

(** C7 fails at a body the decoder rejects: [create] and [update] return
    with the body still open. *)
Lemma broken_body_is_left_open :
  let t := NewTaskHandler storing_service in
  let r := request broken_body sample_id in
  json.Decode (A := CreateTasksRequest.t) (http.Request.Body r) = None
  ∧ json.Decode (A := UpdateTasksRequest.t) (http.Request.Body r) = None
  ∧ BodyClosed (serve (create t r) http.NewRecorder) = false
  ∧ BodyClosed (serve (update t r) http.NewRecorder) = false.
Proof. repeat split; vm_compute; reflexivity. Qed.

(** At a body that decodes, the deferred [Close] runs. *)
Lemma decoded_body_is_closed :
  let t := NewTaskHandler storing_service in
  BodyClosed (serve (create t (request create_body EmptyString)) http.NewRecorder) = true
  ∧ BodyClosed (serve (update t (request update_body sample_id)) http.NewRecorder) = true.
Proof. split; vm_compute; reflexivity. Qed.

End Samples.

(** ** The routes *)

Section Routes.
Import mux.

Lemma list_ascii_of_string_app (a b : string) :
  list_ascii_of_string (a +:+ b) = list_ascii_of_string a ++ list_ascii_of_string b.
Proof. induction a as [|c a IH]; simpl; [reflexivity | now rewrite IH]. Qed.

Lemma strip_prefix_Some p s rest :
  strip_prefix p s = Some rest ↔ s = p ++ rest.
Proof.
  revert s. induction p as [|a p IH]; intros s; simpl.
  - split; [intros [= ->] | intros ->]; reflexivity.
  - destruct s as [|b s].
    + split; [discriminate | intros [=]].
    + destruct (Ascii.eqb_spec a b) as [->|Hne].
      * rewrite IH. split; [intros -> | intros [= ->]]; reflexivity.
      * split; [discriminate | intros [= -> _]; contradiction].
Qed.

Lemma strip_atom_Some a n s rest :
  strip_atom a n s = Some rest
  ↔ ∃ g, s = g ++ rest ∧ length g = n ∧ Forall (λ c, atom_matches a c = true) g.
Proof.
  revert s. induction n as [|n IH]; intros s; simpl.
  - split.
    + intros [= ->]. exists []. auto.
    + intros (g & -> & Hlen & _). destruct g; [reflexivity | discriminate].
  - destruct s as [|c s].
    + split; [discriminate|]. intros (g & Hs & Hlen & _).
      destruct g; [discriminate Hlen | discriminate Hs].
    + destruct (atom_matches a c) eqn:Hc.
      * rewrite IH. split.
        -- intros (g & -> & Hlen & Hall). exists (c :: g). simpl. auto.
        -- intros (g & Hs & Hlen & Hall). destruct g as [|c' g]; [discriminate Hlen|].
           injection Hs as -> ->. injection Hlen as Hlen.
           inversion_clear Hall. eauto.
      * split; [discriminate|]. intros (g & Hs & Hlen & Hall).
        destruct g as [|c' g]; [discriminate Hlen|].
        injection Hs as -> ->. inversion_clear Hall. congruence.
Qed.

Lemma strip_regexp_cons a n r s rest :
  strip_regexp ((a, n) :: r) s = Some rest
  ↔ ∃ g s', s = g ++ s' ∧ length g = n ∧ Forall (λ c, atom_matches a c = true) g
            ∧ strip_regexp r s' = Some rest.
Proof.
  simpl. rewrite bind_Some. split.
  - intros (s' & Hatom & Hrest). apply strip_atom_Some in Hatom as (g & -> & Hlen & Hall).
    eauto 6.
  - intros (g & s' & -> & Hlen & Hall & Hrest). exists s'. split; [|assumption].
    apply strip_atom_Some. eauto.
Qed.

Lemma hex_class_is_hex c : atom_matches hex_class c = is_hex c.
Proof.
  unfold hex_class, is_hex, is_digit, atom_matches, in_range. simpl.
  rewrite orb_false_r, orb_assoc. reflexivity.
Qed.

Lemma literal_group c g :
  length g = 1%nat → Forall (λ x, atom_matches (Literal c) x = true) g → g = [c].
Proof.
  destruct g as [|x [|y g]]; try discriminate. intros _ Hall.
  inversion_clear Hall as [|? ? Hx _]. simpl in Hx. apply Ascii.eqb_eq in Hx. congruence.
Qed.

Lemma Forall_hex_class g :
  Forall (λ c, atom_matches hex_class c = true) g ↔ Forall (λ c, is_hex c = true) g.
Proof. apply Forall_iff. intros c. rewrite hex_class_is_hex. reflexivity. Qed.

(** The pattern of the routes takes exactly the UUID shape. *)
Lemma strip_uuid_regexp s :
  strip_regexp uuid_regexp s = Some [] ↔ uuid_shape (string_of_list_ascii s).
Proof.
  unfold uuid_shape. rewrite list_ascii_of_string_of_list_ascii. split.
  - unfold uuid_regexp. intros Hs.
    repeat (apply strip_regexp_cons in Hs as (? & ? & -> & ? & ? & Hs)).
    injection Hs as ->.
    repeat match goal with
    | Hl : length ?g = 1%nat, Ha : Forall _ ?g |- _ =>
        pose proof (literal_group _ _ Hl Ha); subst g; clear Hl Ha
    | Ha : Forall (λ c, atom_matches hex_class c = true) _ |- _ =>
        apply Forall_hex_class in Ha
    end.
    do 5 eexists. split; [|split].
    + rewrite app_nil_r. simpl. reflexivity.
    + simpl. congruence.
    + rewrite !Forall_app. auto.
  - intros (g1 & g2 & g3 & g4 & g5 & -> & Hlen & Hall).
    injection Hlen as H1 H2 H3 H4 H5.
    rewrite !Forall_app in Hall. destruct Hall as (A1 & A2 & A3 & A4 & A5).
    rewrite <- Forall_hex_class in A1, A2, A3, A4, A5.
    unfold uuid_regexp.
    repeat (apply strip_regexp_cons;
            first [ exists ["-"%char]; eexists; split; [reflexivity|];
                    split; [reflexivity|]; split; [repeat constructor|]
                  | eexists; eexists; split; [reflexivity|];
                    split; [eassumption|]; split; [eassumption|] ]).
    rewrite <- (app_nil_r g5) at 1.
    apply strip_regexp_cons. exists g5, []. auto.
Qed.

Lemma parse_tasks_template :
  parse_template "/tasks" = Some [Static (list_ascii_of_string "/tasks")].
Proof. vm_compute. reflexivity. Qed.

Lemma parse_task_template :
  parse_template ("/tasks/{id:" +:+ tasks.uuidRegEx +:+ "}")
  = Some [Static (list_ascii_of_string "/tasks/"); Var "id" uuid_regexp].
Proof. vm_compute. reflexivity. Qed.

Lemma match_tasks_template path vars :
  match_parts [Static (list_ascii_of_string "/tasks")] (list_ascii_of_string path) ∅
    = Some vars
  ↔ path = "/tasks" ∧ vars = ∅.
Proof.
  cbn [match_parts]. rewrite bind_Some. split.
  - intros (rest & Hprefix & Hend). apply strip_prefix_Some in Hprefix.
    destruct rest; [|discriminate]. injection Hend as <-.
    rewrite app_nil_r in Hprefix.
    apply (f_equal string_of_list_ascii) in Hprefix.
    rewrite string_of_list_ascii_of_string in Hprefix. auto.
  - intros [-> ->]. exists []. split; reflexivity.
Qed.

Lemma match_task_template path vars :
  match_parts [Static (list_ascii_of_string "/tasks/"); Var "id" uuid_regexp]
    (list_ascii_of_string path) ∅ = Some vars
  ↔ ∃ id, path = "/tasks/" +:+ id ∧ uuid_shape id ∧ vars = {["id" := id]}.
Proof.
  cbn [match_parts]. rewrite bind_Some. split.
  - intros (rest & Hprefix & Hvar). apply strip_prefix_Some in Hprefix.
    apply bind_Some in Hvar as (rest' & Hid & Hend).
    destruct rest'; [|discriminate]. injection Hend as <-.
    exists (string_of_list_ascii rest). split; [|split].
    + apply (f_equal string_of_list_ascii) in Hprefix.
      rewrite string_of_list_ascii_of_string in Hprefix. rewrite Hprefix.
      rewrite <- (string_of_list_ascii_of_string ("/tasks/" +:+ _)).
      rewrite list_ascii_of_string_app, list_ascii_of_string_of_list_ascii. reflexivity.
    + apply strip_uuid_regexp, Hid.
    + simpl. rewrite Nat.sub_0_r, firstn_all. reflexivity.
  - intros (id & -> & Hshape & ->). exists (list_ascii_of_string id). split.
    + apply strip_prefix_Some. apply list_ascii_of_string_app.
    + apply bind_Some. exists []. split.
      * apply strip_uuid_regexp. rewrite string_of_list_ascii_of_string. assumption.
      * simpl. rewrite Nat.sub_0_r, firstn_all, string_of_list_ascii_of_string. reflexivity.
Qed.

Section Register.
Import tasks.
Context `{Wire}.
Context `{!json.Unmarshaler CreateTasksRequest.t, !json.Unmarshaler UpdateTasksRequest.t}.
Implicit Types (t : TaskHandler) (method path : string).

Lemma Register_NewRouter t :
  Register t NewRouter
  = [mkRoute (Some [Static (list_ascii_of_string "/tasks")]) [http.MethodPost] (create t);
     mkRoute (Some [Static (list_ascii_of_string "/tasks/"); Var "id" uuid_regexp])
       [http.MethodGet] (task t);
     mkRoute (Some [Static (list_ascii_of_string "/tasks/"); Var "id" uuid_regexp])
       [http.MethodPut] (update t)].
Proof.
  unfold Register, HandleFunc, NewRouter.
  rewrite parse_tasks_template, parse_task_template. reflexivity.
Qed.

Lemma method_matches_one {H'} tpl m (f : H') method :
  method_matches (mkRoute tpl [m] f) method = bool_decide (method = m).
Proof.
  unfold method_matches. simpl. apply bool_decide_ext, list_elem_of_singleton.
Qed.

Lemma tasks_is_no_task_path id : "/tasks" ≠ "/tasks/" +:+ id.
Proof. simpl. discriminate. Qed.

(** C9.  [Register] adds exactly three routes to a new router: POST on
    [/tasks] for [create], GET and PUT on [/tasks/{id}] for [task] and
    [update], the variable [id] under the pattern [uuidRegEx].  A request is
    dispatched to a handler exactly when it is a POST of [/tasks], or a GET
    or a PUT of [/tasks/] followed by an id of the 8-4-4-4-12 hexadecimal
    shape: a request whose id is of another shape reaches no handler. *)
Theorem Register_routes t method path h vars :
  ((λ rt, (methods rt, template rt)) <$> Register t NewRouter
   = [([http.MethodPost], Some [Static (list_ascii_of_string "/tasks")]);
      ([http.MethodGet],
       Some [Static (list_ascii_of_string "/tasks/"); Var "id" uuid_regexp]);
      ([http.MethodPut],
       Some [Static (list_ascii_of_string "/tasks/"); Var "id" uuid_regexp])])
  ∧ handler <$> Register t NewRouter = [create t; task t; update t]
  ∧ (Match (Register t NewRouter) method path false = Matched h vars
     ↔ (method = "POST" ∧ path = "/tasks" ∧ h = create t ∧ vars = ∅)
       ∨ ∃ id, path = "/tasks/" +:+ id ∧ uuid_shape id ∧ vars = {["id" := id]}
               ∧ ((method = "GET" ∧ h = task t) ∨ (method = "PUT" ∧ h = update t))).
Proof.
  rewrite Register_NewRouter.
  split; [reflexivity|]. split; [reflexivity|].
  cbn [Match path_vars template handler mbind option_bind].
  rewrite !method_matches_one.
  destruct (match_parts [Static _] _ ∅) as [v1|] eqn:E1.
  - apply match_tasks_template in E1 as [-> ->].
    destruct (bool_decide_reflect (method = http.MethodPost)) as [->|Hne].
    + split.
      * intros [= <- <-]. left. auto.
      * intros [(_ & _ & -> & ->) | (id & Hpath & _)]; [reflexivity|].
        destruct (tasks_is_no_task_path _ Hpath).
    + split; [discriminate|].
      intros [(-> & _) | (id & Hpath & _)]; [contradiction|].
      destruct (tasks_is_no_task_path _ Hpath).
  - assert (path ≠ "/tasks") as Hpath1.
    { intros ->. rewrite (proj2 (match_tasks_template "/tasks" ∅)) in E1;
        [discriminate | auto]. }
    destruct (match_parts [Static _; _] _ ∅) as [v2|] eqn:E2.
    + apply match_task_template in E2 as (id & -> & Hshape & ->).
      assert (∀ id', "/tasks/" +:+ id = "/tasks/" +:+ id' → id' = id) as Hinj.
      { intros id' Heq. cbn in Heq. injection Heq as Heq. symmetry. exact Heq. }
      destruct (bool_decide_reflect (method = http.MethodGet)) as [->|HneG].
      * split.
        -- intros [= <- <-]. right. exists id. auto 6.
        -- intros [(_ & Hp & _) | (id' & Hp & _ & -> & [[_ ->] | [[=] _]])];
             [contradiction|]. apply Hinj in Hp as ->. reflexivity.
      * destruct (bool_decide_reflect (method = http.MethodPut)) as [->|HneP].
        -- split.
           ++ intros [= <- <-]. right. exists id. auto 6.
           ++ intros [(_ & Hp & _) | (id' & Hp & _ & -> & [[[=] _] | [_ ->]])];
                [contradiction|]. apply Hinj in Hp as ->. reflexivity.
        -- split; [discriminate|].
           intros [(_ & Hp & _) | (id' & _ & _ & _ & [[-> _] | [-> _]])]; contradiction.
    + split; [discriminate|].
      intros [(_ & Hp & _) | (id & -> & Hshape & _)]; [contradiction|].
      rewrite (proj2 (match_task_template _ {["id" := id]})) in E2; [discriminate|].
      exists id. auto.
Qed.
End Register.
End Routes.

(** * Further properties *)

(** ** The error renderer of rest.go, beyond the cases above *)

Section ErrorRendererMore.
Import internal.
Implicit Types (ctx : trace.Context) (w : http.ResponseWriter) (msg : string).
Implicit Types (err : option error) (e : error) (ierr : Error).

(** The error renderer sets the Content-Type like the response renderer. *)
Lemma renderErrorResponse_content_type ctx w msg err :
  http.Code w = None →
  http.Header (rest.renderErrorResponse ctx w msg err).2 !! "Content-Type"
  = Some ["application/json"].
Proof.
  intros Hfresh. rewrite renderErrorResponse_writer.
  destruct (Marshal_ErrorResponse_total (rest.errorResponseOf msg err).1) as [content Hc].
  rewrite (renderResponse_encoded _ _ _ content Hfresh Hc). apply lookup_insert_eq.
Qed.

(** X1.  The status the error renderer writes is decided by the code of the
    first [*internal.Error] on the chain and by nothing else: 404 exactly
    for not-found, 400 exactly for invalid-argument, 500 in every other
    case (no such error on the chain, the code unknown, any other code); the
    response is JSON in all of them. *)
Theorem error_status_follows_classification ctx w msg err :
  http.Code w = None →
  let w' := (rest.renderErrorResponse ctx w msg err).2 in
  let code := Code <$> errors.As_Error err in
  http.Header w' !! "Content-Type" = Some ["application/json"]
  ∧ (http.Code w' = Some http.StatusNotFound ↔ code = Some ErrorCodeNotFound)
  ∧ (http.Code w' = Some http.StatusBadRequest ↔ code = Some ErrorCodeInvalidArgument)
  ∧ (http.Code w' = Some http.StatusInternalServerError
     ↔ code ≠ Some ErrorCodeNotFound ∧ code ≠ Some ErrorCodeInvalidArgument).
Proof.
  intros Hfresh w' code. subst w' code.
  split; [apply renderErrorResponse_content_type, Hfresh|].
  rewrite (renderErrorResponse_status _ _ _ _ Hfresh).
  unfold rest.errorResponseOf.
  destruct (errors.As_Error err) as [ierr|]; cbn [fmap option_fmap option_map];
    [destruct (Code ierr); try destruct (errors.As_Errors (ptrError ierr))|];
    cbn [snd fst];
    cbv [http.StatusNotFound http.StatusBadRequest http.StatusInternalServerError];
    intuition (try discriminate; try congruence).
Qed.

(** X3.  Field-level failures reach the body for invalid-argument only.  An
    error of any other classification, or of none, is rendered as the object
    with the one member [error], even when a [validation.Errors] lies on its
    chain; the text is the caller's message when the error is classified and
    the generic text when it is not. *)
Theorem validations_only_for_invalid_argument ctx w msg err :
  http.Code w = None →
  Code <$> errors.As_Error err ≠ Some ErrorCodeInvalidArgument →
  http.Body (rest.renderErrorResponse ctx w msg err).2
  = http.Body w +:+
    json.object
      [("error",
        json.quote (if errors.As_Error err is Some _ then msg else "internal error"))].
Proof.
  intros Hfresh Hcode. rewrite renderErrorResponse_writer.
  unfold rest.errorResponseOf.
  destruct (errors.As_Error err) as [ierr|]; simpl in *.
  - destruct (Code ierr); try congruence; cbn [fst snd];
      rewrite (renderResponse_encoded _ _ _ _ Hfresh (Marshal_error_only msg));
      reflexivity.
  - rewrite (renderResponse_encoded _ _ _ _ Hfresh (Marshal_error_only "internal error")).
    reflexivity.
Qed.

(** X4.  Wrapping does not change the response: an error wrapped any
    number of times ([fmt.Errorf] with [%w]) is rendered as the error it
    wraps. *)
Theorem wrapped_error_renders_alike ctx w msg (wraps : list string) e :
  (rest.renderErrorResponse ctx w msg (Some (foldr wrapError e wraps))).2
  = (rest.renderErrorResponse ctx w msg (Some e)).2.
Proof.
  rewrite !renderErrorResponse_writer.
  assert (errors.As_Error (Some (foldr wrapError e wraps)) = errors.As_Error (Some e)) as Has.
  { induction wraps as [|m wraps IH]; [reflexivity | exact IH]. }
  unfold rest.errorResponseOf. rewrite Has. reflexivity.
Qed.

(** X5.  The texts stored in an error never reach the response: two errors
    with the same classification and the same field-level failures are
    rendered alike, whatever their messages and their causes are. *)
Theorem error_texts_never_reach_response ctx w msg e1 e2 :
  Code <$> errors.As_Error (Some e1) = Code <$> errors.As_Error (Some e2) →
  errors.As_Errors e1 = errors.As_Errors e2 →
  (rest.renderErrorResponse ctx w msg (Some e1)).2
  = (rest.renderErrorResponse ctx w msg (Some e2)).2.
Proof.
  intros Hcode Hfail. rewrite !renderErrorResponse_writer.
  assert (rest.errorResponseOf msg (Some e1) = rest.errorResponseOf msg (Some e2)) as ->;
    [|reflexivity].
  unfold rest.errorResponseOf.
  destruct (errors.As_Error (Some e1)) as [i1|] eqn:H1;
    destruct (errors.As_Error (Some e2)) as [i2|] eqn:H2; try discriminate; [|reflexivity].
  injection Hcode as Hcode.
  rewrite (As_Errors_below_As_Error _ _ H1), (As_Errors_below_As_Error _ _ H2).
  rewrite Hcode, Hfail. reflexivity.
Qed.

(** X6.  Tracing is a side channel.  The events recorded before the call
    are kept; a non-nil error adds one span, started, given the error as it
    was passed, and ended; and the response is the same under every
    context. *)
Theorem tracing_is_a_side_channel ctx w msg err :
  (rest.renderErrorResponse ctx w msg err).1
  = ctx ++ match err with
           | Some e =>
               [trace.Start "rest.renderErrorResponse"; trace.RecordError e;
                trace.End_ "rest.renderErrorResponse"]
           | None => []
           end
  ∧ ∀ ctx', (rest.renderErrorResponse ctx' w msg err).2
            = (rest.renderErrorResponse ctx w msg err).2.
Proof.
  split.
  - unfold rest.renderErrorResponse.
    destruct (rest.errorResponseOf msg err) as [resp status].
    destruct err; simpl; [rewrite <- app_assoc | rewrite app_nil_r]; reflexivity.
  - intros ctx'. rewrite !renderErrorResponse_writer. reflexivity.
Qed.

End ErrorRendererMore.

(** ** Rendering twice *)

Section RenderTwice.
Context {A B : Type} `{!json.Marshaler A, !json.Marshaler B}.

Lemma string_app_empty_r (s : string) : s +:+ EmptyString = s.
Proof.
  induction s as [|c s IH]; [reflexivity|].
  change (String c (s +:+ EmptyString) = String c s). now rewrite IH.
Qed.

Lemma renderResponse_writes_status {C} `{!json.Marshaler C} w (res : C) status :
  is_Some (http.Code (rest.renderResponse w res status)).
Proof.
  unfold rest.renderResponse, http.Write, http.WriteHeader, http.Header_Set.
  destruct (json.Marshal res), (http.Code w) eqn:Hw; simpl; rewrite ?Hw; simpl; eauto.
Qed.

Lemma renderResponse_after_status {C} `{!json.Marshaler C} w (res : C) status code :
  http.Code w = Some code →
  rest.renderResponse w res status
  = {| http.Header := http.Header w;
       http.Code := Some code;
       http.Body := http.Body w +:+ default EmptyString (json.Marshal res) |}.
Proof.
  intros Hw.
  unfold rest.renderResponse, http.Write, http.WriteHeader, http.Header_Set.
  destruct (json.Marshal res) as [content|]; simpl; rewrite ?Hw; simpl; rewrite ?Hw.
  - reflexivity.
  - rewrite string_app_empty_r. destruct w as [hd cd bd]. simpl in *. now subst cd.
Qed.

(** X7.  A response rendered twice keeps the status line and the headers
    of the first rendering, whatever the second is given; the second
    rendering only adds its bytes to the body, when its value is encoded. *)
Theorem second_render_keeps_status w (a : A) (b : B) s1 s2 :
  let w1 := rest.renderResponse w a s1 in
  let w2 := rest.renderResponse w1 b s2 in
  is_Some (http.Code w1)
  ∧ http.Code w2 = http.Code w1
  ∧ http.Header w2 = http.Header w1
  ∧ http.Body w2 = http.Body w1 +:+ default EmptyString (json.Marshal b).
Proof.
  intros w1 w2. subst w2.
  destruct (renderResponse_writes_status w a s1) as [code Hcode]. fold w1 in Hcode.
  rewrite (renderResponse_after_status w1 b s2 code Hcode). simpl.
  rewrite Hcode. eauto.
Qed.

End RenderTwice.

(** ** The handlers, beyond the cases above *)

Section HandlersMore.
Import internal tasks.
Context `{Wire}.
Context `{!json.Unmarshaler CreateTasksRequest.t, !json.Unmarshaler UpdateTasksRequest.t}.
Implicit Types (t : TaskHandler) (r : http.Request.t) (w : http.ResponseWriter).

(** One step of a handler run, down to the next choice or renderer call. *)
Ltac step_handler :=
  cbv beta iota zeta delta
    [serve create task update mbind Handler_bind invoke respond defer run_deferred
     foldl snd Writer BodyClosed Calls Defers].

Lemma Marshal_ReadTasksResponse (v : ReadTasksResponse.t) content :
  json.Marshal (ReadTasksResponse.Task v) = Some content →
  json.Marshal v = Some (json.object [("task", content)]).
Proof.
  intros Hc.
  unfold json.Marshal at 1. unfold json.MarshalJSON at 1.
  unfold ReadTasksResponse_Marshaler, json.struct, json.field.
  rewrite Hc. reflexivity.
Qed.

(** What a rendering leaves on a fresh writer, whatever the value: the
    Content-Type, and the given status or 500. *)
Lemma renderResponse_fresh_cases {C} `{!json.Marshaler C} w (res : C) status :
  http.Code w = None →
  http.Header (rest.renderResponse w res status) !! "Content-Type"
    = Some ["application/json"]
  ∧ (http.Code (rest.renderResponse w res status) = Some status
     ∨ http.Code (rest.renderResponse w res status) = Some http.StatusInternalServerError).
Proof.
  intros Hfresh. destruct (json.Marshal res) as [content|] eqn:Hres.
  - rewrite (renderResponse_encoded _ _ _ content Hfresh Hres). simpl.
    split; [apply lookup_insert_eq | auto].
  - rewrite (renderResponse_not_encoded _ _ _ Hfresh Hres). simpl.
    split; [apply lookup_insert_eq | auto].
Qed.

(** X8.  When the service's [Task] returns a task and no error, the fetch
    handler answers status 200 with the object [task] of the returned
    task, the priority and the dates converted to their wire form. *)
Theorem fetch_success_renders_returned_task t r w tk p d :
  http.Code w = None →
  TaskService.Task (svc t) (default EmptyString (mux.Vars r !! "id")) = (tk, None) →
  json.Marshal (NewPriority (internal.Priority_ tk)) = Some p →
  json.Marshal (NewDates (internal.Dates_ tk)) = Some d →
  let s := serve (task t r) w in
  http.Code (Writer s) = Some http.StatusOK
  ∧ http.Body (Writer s) =
      http.Body w +:+
      json.object
        [("task",
          json.object
            [("id", json.quote (internal.ID tk));
             ("description", json.quote (internal.Description tk));
             ("priority", p);
             ("dates", d)])].
Proof.
  intros Hfresh Htask Hp Hd. step_handler. rewrite Htask. step_handler.
  erewrite renderResponse_encoded; [simpl; split; reflexivity | assumption |].
  apply Marshal_ReadTasksResponse. cbn [ReadTasksResponse.Task].
  exact (Marshal_Task
           {| Task.ID := internal.ID tk;
              Task.Description := internal.Description tk;
              Task.Priority := NewPriority (internal.Priority_ tk);
              Task.Dates := NewDates (internal.Dates_ tk) |}
           p d Hp Hd).
Qed.

(** X9.  When the service's [Create] returns an error, of whatever
    classification and whatever it carries, the create handler answers
    status 500 with the body [{"error":"create failed"}], and closes the
    request body. *)
Theorem create_failure_renders_create_failed t r w req tk e :
  http.Code w = None →
  json.Decode (http.Request.Body r) = Some req →
  TaskService.Create (svc t)
    (CreateTasksRequest.Description req)
    (Priority_Convert (CreateTasksRequest.Priority req))
    (Dates_Convert (CreateTasksRequest.Dates req)) = (tk, Some e) →
  let s := serve (create t r) w in
  http.Code (Writer s) = Some http.StatusInternalServerError
  ∧ http.Body (Writer s) = http.Body w +:+ json.text "{'error':'create failed'}"
  ∧ BodyClosed s = true.
Proof.
  intros Hfresh Hdecode Hcreate. step_handler. rewrite Hdecode. step_handler.
  rewrite Hcreate. step_handler.
  rewrite (renderErrorResponse_fresh _ _ _ Hfresh). auto.
Qed.

(** X10.  When the service's [Update] returns an error, of whatever
    classification, the update handler answers status 500 with the body
    [{"error":"update failed"}], and closes the request body. *)
Theorem update_failure_renders_update_failed t r w req e :
  http.Code w = None →
  json.Decode (http.Request.Body r) = Some req →
  TaskService.Update (svc t)
    (default EmptyString (mux.Vars r !! "id"))
    (UpdateTasksRequest.Description req)
    (Priority_Convert (UpdateTasksRequest.Priority req))
    (Dates_Convert (UpdateTasksRequest.Dates req))
    (UpdateTasksRequest.IsDone req) = Some e →
  let s := serve (update t r) w in
  http.Code (Writer s) = Some http.StatusInternalServerError
  ∧ http.Body (Writer s) = http.Body w +:+ json.text "{'error':'update failed'}"
  ∧ BodyClosed s = true.
Proof.
  intros Hfresh Hdecode Hupdate. step_handler. rewrite Hdecode. step_handler.
  rewrite Hupdate. step_handler.
  rewrite (renderErrorResponse_fresh _ _ _ Hfresh). auto.
Qed.

(** X11.  Each handler calls the service at most once, and only the
    operation of its route.  [create] and [update] make no call when the
    body does not decode, and otherwise one call with the request's fields,
    priority and dates converted to the domain; [task] always makes one
    call.  The id passed is the route variable [id], the empty string when
    the request has none. *)
Theorem handlers_call_their_operation_once t r w :
  Calls (serve (create t r) w)
  = match json.Decode (A := CreateTasksRequest.t) (http.Request.Body r) with
    | None => []
    | Some req =>
        [CallCreate (CreateTasksRequest.Description req)
           (Priority_Convert (CreateTasksRequest.Priority req))
           (Dates_Convert (CreateTasksRequest.Dates req))]
    end
  ∧ Calls (serve (task t r) w) = [CallTask (default EmptyString (mux.Vars r !! "id"))]
  ∧ Calls (serve (update t r) w)
    = match json.Decode (A := UpdateTasksRequest.t) (http.Request.Body r) with
      | None => []
      | Some req =>
          [CallUpdate (default EmptyString (mux.Vars r !! "id"))
             (UpdateTasksRequest.Description req)
             (Priority_Convert (UpdateTasksRequest.Priority req))
             (Dates_Convert (UpdateTasksRequest.Dates req))
             (UpdateTasksRequest.IsDone req)]
      end.
Proof.
  repeat split; step_handler.
  - destruct (json.Decode _) as [req|]; step_handler; [|reflexivity].
    destruct (TaskService.Create _ _ _ _) as [tk [e|]]; reflexivity.
  - destruct (TaskService.Task _ _) as [tk [e|]]; reflexivity.
  - destruct (json.Decode _) as [req|]; step_handler; [|reflexivity].
    destruct (TaskService.Update _ _ _ _ _ _) as [e|]; reflexivity.
Qed.

(** X12.  [create] and [update] close the request body exactly when it
    decoded, whatever the service returns afterwards; [task], which reads
    no body, never closes it. *)
Theorem handlers_close_body_after_decode_only t r w :
  BodyClosed (serve (create t r) w)
  = bool_decide (is_Some (json.Decode (A := CreateTasksRequest.t) (http.Request.Body r)))
  ∧ BodyClosed (serve (task t r) w) = false
  ∧ BodyClosed (serve (update t r) w)
    = bool_decide (is_Some (json.Decode (A := UpdateTasksRequest.t) (http.Request.Body r))).
Proof.
  repeat split; step_handler.
  - destruct (json.Decode _) as [req|]; step_handler; [|reflexivity].
    destruct (TaskService.Create _ _ _ _) as [tk [e|]]; reflexivity.
  - destruct (TaskService.Task _ _) as [tk [e|]]; reflexivity.
  - destruct (json.Decode _) as [req|]; step_handler; [|reflexivity].
    destruct (TaskService.Update _ _ _ _ _ _) as [e|]; reflexivity.
Qed.

(** X13.  On every path a handler answers JSON with one of the statuses of
    its route: [create] 201, 400 or 500; [task] 200 or 500; [update] 200, 400
    or 500.  No handler answers 404, whatever the service returns. *)
Theorem handlers_answer_json_with_route_statuses t r w :
  http.Code w = None →
  (let w' := Writer (serve (create t r) w) in
   http.Header w' !! "Content-Type" = Some ["application/json"]
   ∧ http.Code w' ∈ [Some http.StatusCreated; Some http.StatusBadRequest;
                      Some http.StatusInternalServerError])
  ∧ (let w' := Writer (serve (task t r) w) in
     http.Header w' !! "Content-Type" = Some ["application/json"]
     ∧ http.Code w' ∈ [Some http.StatusOK; Some http.StatusInternalServerError])
  ∧ (let w' := Writer (serve (update t r) w) in
     http.Header w' !! "Content-Type" = Some ["application/json"]
     ∧ http.Code w' ∈ [Some http.StatusOK; Some http.StatusBadRequest;
                        Some http.StatusInternalServerError]).
Proof.
  intros Hfresh.
  assert (∀ msg status (codes : list (option Z)),
            Some status ∈ codes →
            http.Header (renderErrorResponse w msg status) !! "Content-Type"
              = Some ["application/json"]
            ∧ http.Code (renderErrorResponse w msg status) ∈ codes) as Herr.
  { intros msg status codes Hin. rewrite (renderErrorResponse_fresh _ _ _ Hfresh). simpl.
    split; [apply lookup_insert_eq | assumption]. }
  assert (∀ C (M : json.Marshaler C) (res : C) status (codes : list (option Z)),
            Some status ∈ codes →
            Some http.StatusInternalServerError ∈ codes →
            http.Header (rest.renderResponse w res status) !! "Content-Type"
              = Some ["application/json"]
            ∧ http.Code (rest.renderResponse w res status) ∈ codes) as Hok.
  { intros C M res status codes Hin Hin500.
    destruct (renderResponse_fresh_cases w res status Hfresh) as [Hct [-> | ->]]; auto. }
  split; [|split]; step_handler.
  - destruct (json.Decode _) as [req|]; step_handler.
    + destruct (TaskService.Create _ _ _ _) as [tk [e|]]; step_handler.
      * apply Herr. repeat constructor.
      * apply Hok; repeat constructor.
    + apply Herr. repeat constructor.
  - destruct (TaskService.Task _ _) as [tk [e|]]; step_handler.
    + apply Herr. repeat constructor.
    + apply Hok; repeat constructor.
  - destruct (json.Decode _) as [req|]; step_handler.
    + destruct (TaskService.Update _ _ _ _ _ _) as [e|]; step_handler.
      * apply Herr. repeat constructor.
      * apply Hok; repeat constructor.
    + apply Herr. repeat constructor.
Qed.

(** X14.  The create response mirrors the request when the service stores
    what it is given and the conversion to the domain and back gives the
    wire priority and dates again: the body is then the object [task] of
    the service's id and the request's description, priority and dates. *)
Theorem create_mirrors_request_of_storing_service t r w req id p d :
  http.Code w = None →
  json.Decode (http.Request.Body r) = Some req →
  TaskService.Create (svc t)
    (CreateTasksRequest.Description req)
    (Priority_Convert (CreateTasksRequest.Priority req))
    (Dates_Convert (CreateTasksRequest.Dates req))
  = (mkTask id (CreateTasksRequest.Description req)
       (Priority_Convert (CreateTasksRequest.Priority req))
       (Dates_Convert (CreateTasksRequest.Dates req)), None) →
  NewPriority (Priority_Convert (CreateTasksRequest.Priority req))
    = CreateTasksRequest.Priority req →
  NewDates (Dates_Convert (CreateTasksRequest.Dates req)) = CreateTasksRequest.Dates req →
  json.Marshal (CreateTasksRequest.Priority req) = Some p →
  json.Marshal (CreateTasksRequest.Dates req) = Some d →
  let s := serve (create t r) w in
  http.Code (Writer s) = Some http.StatusCreated
  ∧ http.Body (Writer s) =
      http.Body w +:+
      json.object
        [("task",
          json.object
            [("id", json.quote id);
             ("description", json.quote (CreateTasksRequest.Description req));
             ("priority", p);
             ("dates", d)])].
Proof.
  intros Hfresh Hdecode Hcreate Hprio Hdates Hp Hd.
  step_handler. rewrite Hdecode. step_handler. rewrite Hcreate. step_handler.
  cbn [internal.ID internal.Description internal.Priority_ internal.Dates_].
  rewrite Hprio, Hdates.
  erewrite renderResponse_encoded; [simpl; split; reflexivity | assumption |].
  apply Marshal_CreateTasksResponse. cbn [CreateTasksResponse.Task].
  exact (Marshal_Task
           {| Task.ID := id;
              Task.Description := CreateTasksRequest.Description req;
              Task.Priority := CreateTasksRequest.Priority req;
              Task.Dates := CreateTasksRequest.Dates req |}
           p d Hp Hd).
Qed.

End HandlersMore.

(** ** The routes, beyond the cases above *)

Section RoutesMore.
Import mux tasks.
Context `{Wire}.
Context `{!json.Unmarshaler CreateTasksRequest.t, !json.Unmarshaler UpdateTasksRequest.t}.
Implicit Types (t : TaskHandler) (method path : string).

Lemma task_path_inj id id' : "/tasks/" +:+ id = "/tasks/" +:+ id' → id = id'.
Proof. intros Heq. cbn in Heq. injection Heq as Heq. exact Heq. Qed.

(** What the router answers, by the three kinds of path. *)
Lemma Match_Register_cases t method path :
  (path = "/tasks"
   ∧ Match (Register t NewRouter) method path false
     = if bool_decide (method = http.MethodPost) then Matched (create t) ∅
       else MethodNotAllowed)
  ∨ (∃ id, path = "/tasks/" +:+ id ∧ uuid_shape id
           ∧ Match (Register t NewRouter) method path false
             = if bool_decide (method = http.MethodGet)
               then Matched (task t) {["id" := id]}
               else if bool_decide (method = http.MethodPut)
                    then Matched (update t) {["id" := id]}
                    else MethodNotAllowed)
  ∨ (path ≠ "/tasks"
     ∧ (∀ id, path = "/tasks/" +:+ id → ¬ uuid_shape id)
     ∧ Match (Register t NewRouter) method path false = NotFound).
Proof.
  rewrite Register_NewRouter.
  cbn [Match path_vars template handler mbind option_bind].
  rewrite !method_matches_one.
  destruct (match_parts [Static _] _ ∅) as [v1|] eqn:E1.
  - apply match_tasks_template in E1 as [-> ->]. left. split; [reflexivity|].
    destruct (bool_decide_reflect (method = http.MethodPost)); reflexivity.
  - assert (path ≠ "/tasks") as Hpath1.
    { intros ->. rewrite (proj2 (match_tasks_template "/tasks" ∅)) in E1;
        [discriminate | auto]. }
    destruct (match_parts [Static _; _] _ ∅) as [v2|] eqn:E2.
    + apply match_task_template in E2 as (id & -> & Hshape & ->).
      right. left. exists id. split; [reflexivity|]. split; [assumption|].
      destruct (bool_decide_reflect (method = http.MethodGet)); [reflexivity|].
      destruct (bool_decide_reflect (method = http.MethodPut)); reflexivity.
    + right. right. split; [assumption|]. split; [|reflexivity].
      intros id -> Hshape.
      rewrite (proj2 (match_task_template _ {["id" := id]})) in E2; [discriminate|].
      exists id. auto.
Qed.

Ltac step_routed :=
  cbv beta iota zeta delta
    [serve create task update mbind Handler_bind invoke respond defer run_deferred
     foldl snd Writer BodyClosed Calls Defers mux.Vars http.Request.Vars http.Request.Body].

(** X15.  Routing and handling compose on the id: a GET or a PUT of
    [/tasks/] followed by an id of the UUID shape is dispatched to a handler
    that calls the service with exactly that id, the one the router bound
    from the path. *)
Theorem routed_requests_carry_the_path_id t id body w :
  uuid_shape id →
  (∃ h vars,
     Match (Register t NewRouter) http.MethodGet ("/tasks/" +:+ id) false = Matched h vars
     ∧ Calls (serve (h (http.Request.mk body vars)) w) = [CallTask id])
  ∧ (∀ req,
       json.Decode body = Some req →
       ∃ h vars,
         Match (Register t NewRouter) http.MethodPut ("/tasks/" +:+ id) false
           = Matched h vars
         ∧ Calls (serve (h (http.Request.mk body vars)) w)
           = [CallUpdate id (UpdateTasksRequest.Description req)
                (Priority_Convert (UpdateTasksRequest.Priority req))
                (Dates_Convert (UpdateTasksRequest.Dates req))
                (UpdateTasksRequest.IsDone req)]).
Proof.
  intros Hshape.
  assert (∀ method,
            Match (Register t NewRouter) method ("/tasks/" +:+ id) false
            = if bool_decide (method = http.MethodGet)
              then Matched (task t) {["id" := id]}
              else if bool_decide (method = http.MethodPut)
                   then Matched (update t) {["id" := id]}
                   else MethodNotAllowed) as Hmatch.
  { intros method.
    destruct (Match_Register_cases t method ("/tasks/" +:+ id))
      as [[Hp _] | [(id' & Hp & _ & Hm) | (_ & Hno & _)]].
    - symmetry in Hp. destruct (tasks_is_no_task_path _ Hp).
    - apply task_path_inj in Hp as <-. exact Hm.
    - destruct (Hno id eq_refl Hshape). }
  split.
  - exists (task t), {["id" := id]}. split; [rewrite Hmatch; reflexivity|].
    step_routed. rewrite lookup_singleton_eq. cbn [default].
    destruct (TaskService.Task _ _) as [tk [e|]]; reflexivity.
  - intros req Hdecode. exists (update t), {["id" := id]}.
    split; [rewrite Hmatch; reflexivity|].
    step_routed. rewrite Hdecode. step_routed. rewrite lookup_singleton_eq. cbn [default].
    destruct (TaskService.Update _ _ _ _ _ _) as [e|]; reflexivity.
Qed.

(** X16.  A request that reaches no handler is told apart by its path: a
    path of one of the routes under another method is a method mismatch
    (the router's 405), any other path is not found (its 404). *)
Theorem unmatched_requests_are_405_or_404 t method path :
  (Match (Register t NewRouter) method path false = MethodNotAllowed
   ↔ (path = "/tasks" ∧ method ≠ "POST")
     ∨ ∃ id, path = "/tasks/" +:+ id ∧ uuid_shape id ∧ method ≠ "GET" ∧ method ≠ "PUT")
  ∧ (Match (Register t NewRouter) method path false = NotFound
     ↔ path ≠ "/tasks" ∧ ∀ id, path = "/tasks/" +:+ id → ¬ uuid_shape id).
Proof.
  destruct (Match_Register_cases t method path)
    as [[-> ->] | [(id & -> & Hshape & ->) | (Hp & Hno & ->)]].
  - destruct (bool_decide_reflect (method = http.MethodPost)) as [->|Hne]; split; split.
    + discriminate.
    + intros [[_ Hm] | (id & Hp & _)]; [destruct (Hm eq_refl)|].
      destruct (tasks_is_no_task_path _ Hp).
    + discriminate.
    + intros [Hp _]. destruct (Hp eq_refl).
    + intros _. left. auto.
    + reflexivity.
    + discriminate.
    + intros [Hp _]. destruct (Hp eq_refl).
  - assert ("/tasks/" +:+ id ≠ "/tasks") as Hp.
    { intros Hp. symmetry in Hp. destruct (tasks_is_no_task_path _ Hp). }
    destruct (bool_decide_reflect (method = http.MethodGet)) as [->|HneG];
      [|destruct (bool_decide_reflect (method = http.MethodPut)) as [->|HneP]];
      split; split; try discriminate; try reflexivity.
    + intros [[Hp' _] | (id' & _ & _ & Hm & _)]; [destruct (Hp Hp') | destruct (Hm eq_refl)].
    + intros [_ Hno]. destruct (Hno id eq_refl Hshape).
    + intros [[Hp' _] | (id' & _ & _ & _ & Hm)]; [destruct (Hp Hp') | destruct (Hm eq_refl)].
    + intros [_ Hno]. destruct (Hno id eq_refl Hshape).
    + intros _. right. exists id. auto.
    + intros [_ Hno]. destruct (Hno id eq_refl Hshape).
  - split; split; try discriminate; try reflexivity.
    + intros [[Hp' _] | (id & Hp' & Hshape & _)]; [destruct (Hp Hp')|].
      destruct (Hno id Hp' Hshape).
    + auto.
Qed.

End RoutesMore.

(** ** The further properties at sample inputs *)

Section SamplesMore.
Import internal tasks resttesting.
#[local] Existing Instances wire decode_create decode_update.

Lemma sample_id_has_uuid_shape : uuid_shape sample_id.
Proof.
  apply (proj1 (strip_uuid_regexp (list_ascii_of_string sample_id))).
  vm_compute. reflexivity.
Qed.

(** X1 at an error that reports a missing task. *)
Lemma error_status_follows_classification_witness :
  let w' := (rest.renderErrorResponse [] http.NewRecorder "find failed" (Some not_found)).2 in
  let code := Code <$> errors.As_Error (Some not_found) in
  http.Header w' !! "Content-Type" = Some ["application/json"]
  ∧ (http.Code w' = Some http.StatusNotFound ↔ code = Some ErrorCodeNotFound)
  ∧ (http.Code w' = Some http.StatusBadRequest ↔ code = Some ErrorCodeInvalidArgument)
  ∧ (http.Code w' = Some http.StatusInternalServerError
     ↔ code ≠ Some ErrorCodeNotFound ∧ code ≠ Some ErrorCodeInvalidArgument).
Proof.
  exact (error_status_follows_classification [] http.NewRecorder "find failed"
           (Some not_found) eq_refl).
Defined.

(** X2 at the same error. *)
Lemma not_found_renders_404_witness :
  let w' := (rest.renderErrorResponse [] http.NewRecorder "find failed" (Some not_found)).2 in
  http.Code w' = Some http.StatusNotFound
  ∧ http.Body w'
    = http.Body http.NewRecorder +:+ json.object [("error", json.quote "find failed")].
Proof.
  exact (not_found_renders_404 [] http.NewRecorder "find failed" not_found
           (mkError (Some (errorString "sql: no rows in result set")) "task 42"
              ErrorCodeNotFound)
           eq_refl eq_refl eq_refl).
Defined.

(** X3 at a not-found error that wraps field-level failures: they stay out
    of the body. *)
Lemma validations_only_for_invalid_argument_witness :
  let err :=
    Some (ptrError
            (mkError (Some (validationErrors {["description" := validation.Message "required"]}))
               "task 42" ErrorCodeNotFound)) in
  http.Body (rest.renderErrorResponse [] http.NewRecorder "find failed" err).2
  = http.Body http.NewRecorder +:+
    json.object
      [("error",
        json.quote (if errors.As_Error err is Some _ then "find failed"
                    else "internal error"))].
Proof.
  apply (validations_only_for_invalid_argument [] http.NewRecorder "find failed");
    [reflexivity | discriminate].
Defined.

(** X5 at two not-found errors of different texts and causes. *)
Lemma error_texts_never_reach_response_witness :
  (rest.renderErrorResponse [] http.NewRecorder "find failed" (Some not_found)).2
  = (rest.renderErrorResponse [] http.NewRecorder "find failed"
       (Some (wrapError "lookup" (ptrError (mkError None "no such task" ErrorCodeNotFound))))).2.
Proof.
  exact (error_texts_never_reach_response [] http.NewRecorder "find failed" not_found
           (wrapError "lookup" (ptrError (mkError None "no such task" ErrorCodeNotFound)))
           eq_refl eq_refl).
Defined.

(** X8 at a stored task. *)
Lemma fetch_success_renders_returned_task_witness :
  let s := serve (task (NewTaskHandler storing_service) (request EmptyString sample_id))
             http.NewRecorder in
  http.Code (Writer s) = Some http.StatusOK
  ∧ http.Body (Writer s)
    = json.text
        "{'task':{'id':'123e4567-e89b-12d3-a456-426614174000','description':'stored','priority':'low','dates':{'start':'2021-01-01','due':'2021-01-31'}}}".
Proof.
  exact (fetch_success_renders_returned_task
           (NewTaskHandler storing_service) (request EmptyString sample_id) http.NewRecorder
           (mkTask sample_id "stored" "low" sample_dates) _ _
           eq_refl eq_refl eq_refl eq_refl).
Defined.

(** X9 at a service that rejects the description: the field-level failure
    it reports is not in the answer. *)
Lemma create_failure_renders_create_failed_witness :
  let t := NewTaskHandler (failing_service description_required) in
  let s := serve (create t (request create_body EmptyString)) http.NewRecorder in
  http.Code (Writer s) = Some http.StatusInternalServerError
  ∧ http.Body (Writer s)
    = http.Body http.NewRecorder +:+ json.text "{'error':'create failed'}"
  ∧ BodyClosed s = true.
Proof.
  exact (create_failure_renders_create_failed
           (NewTaskHandler (failing_service description_required))
           (request create_body EmptyString) http.NewRecorder create_request no_task
           description_required eq_refl eq_refl eq_refl).
Defined.

(** X10 at a service that does not find the task. *)
Lemma update_failure_renders_update_failed_witness :
  let t := NewTaskHandler (failing_service not_found) in
  let s := serve (update t (request update_body sample_id)) http.NewRecorder in
  http.Code (Writer s) = Some http.StatusInternalServerError
  ∧ http.Body (Writer s)
    = http.Body http.NewRecorder +:+ json.text "{'error':'update failed'}"
  ∧ BodyClosed s = true.
Proof.
  exact (update_failure_renders_update_failed
           (NewTaskHandler (failing_service not_found))
           (request update_body sample_id) http.NewRecorder update_request
           not_found eq_refl eq_refl eq_refl).
Defined.

(** X13 at a service whose every operation fails, on a body that decodes
    as a create request only. *)
Lemma handlers_answer_json_with_route_statuses_witness :
  let t := NewTaskHandler (failing_service not_found) in
  let r := request create_body sample_id in
  (let w' := Writer (serve (create t r) http.NewRecorder) in
   http.Header w' !! "Content-Type" = Some ["application/json"]
   ∧ http.Code w' ∈ [Some http.StatusCreated; Some http.StatusBadRequest;
                      Some http.StatusInternalServerError])
  ∧ (let w' := Writer (serve (task t r) http.NewRecorder) in
     http.Header w' !! "Content-Type" = Some ["application/json"]
     ∧ http.Code w' ∈ [Some http.StatusOK; Some http.StatusInternalServerError])
  ∧ (let w' := Writer (serve (update t r) http.NewRecorder) in
     http.Header w' !! "Content-Type" = Some ["application/json"]
     ∧ http.Code w' ∈ [Some http.StatusOK; Some http.StatusBadRequest;
                        Some http.StatusInternalServerError]).
Proof.
  exact (handlers_answer_json_with_route_statuses
           (NewTaskHandler (failing_service not_found)) (request create_body sample_id)
           http.NewRecorder eq_refl).
Defined.

(** X15 at the sample id. *)
Lemma routed_requests_carry_the_path_id_witness :
  let t := NewTaskHandler storing_service in
  (∃ h vars,
     mux.Match (Register t mux.NewRouter) http.MethodGet ("/tasks/" +:+ sample_id) false
       = mux.Matched h vars
     ∧ Calls (serve (h (http.Request.mk update_body vars)) http.NewRecorder)
       = [CallTask sample_id])
  ∧ (∀ req,
       json.Decode update_body = Some req →
       ∃ h vars,
         mux.Match (Register t mux.NewRouter) http.MethodPut ("/tasks/" +:+ sample_id) false
           = mux.Matched h vars
         ∧ Calls (serve (h (http.Request.mk update_body vars)) http.NewRecorder)
           = [CallUpdate sample_id (UpdateTasksRequest.Description req)
                (Priority_Convert (UpdateTasksRequest.Priority req))
                (Dates_Convert (UpdateTasksRequest.Dates req))
                (UpdateTasksRequest.IsDone req)]).
Proof.
  exact (routed_requests_carry_the_path_id (NewTaskHandler storing_service) sample_id
           update_body http.NewRecorder sample_id_has_uuid_shape).
Defined.

(** X14 at a service that stores what it is given. *)
Lemma create_mirrors_request_of_storing_service_witness :
  let s := serve (create (NewTaskHandler storing_service) (request create_body EmptyString))
             http.NewRecorder in
  http.Code (Writer s) = Some http.StatusCreated
  ∧ http.Body (Writer s)
    = json.text
        "{'task':{'id':'abc-123','description':'write the spec','priority':'high','dates':{'start':'2021-01-01','due':'2021-01-31'}}}".
Proof.
  exact (create_mirrors_request_of_storing_service
           (NewTaskHandler storing_service) (request create_body EmptyString)
           http.NewRecorder create_request "abc-123" _ _
           eq_refl eq_refl eq_refl eq_refl eq_refl eq_refl eq_refl).
Defined.

End SamplesMore.
